(** * wp-api-client-js: the paginated base collection ([js/collections.js])

    A shallow embedding of [wp.api.WPApiBaseCollection] and the properties
    of its pagination bookkeeping, forward-pagination helper and default
    comparator.

    Layout: the fragment of the JavaScript platform the file relies on
    (values, coercions, [parseInt]), the heap of query-parameter objects,
    the collection and its methods, then the theorems. *)

From Stdlib Require Import ZArith String Ascii Decimal DecimalString DecimalN DecimalZ Lia.
From stdpp Require Import base option strings gmap.

Local Open Scope string_scope.
Local Open Scope Z_scope.

(** ** The JavaScript fragment *)

Module JS.

(** Numbers. The collection only ever computes with page and object
    counts: the model covers the integer-valued numbers (below 2^53 in
    magnitude, where the arithmetic of doubles is exact and agrees with
    [Z]) and the not-a-number value. Negative zero is identified with
    zero. *)
Inductive number : Type :=
  | NaN
  | Int (z : Z).

(** Primitive values, as they occur in query parameters and in the
    attributes of a record. A [Date] attribute is represented by its time
    value, which is what [valueOf] returns for it. *)
Inductive value : Type :=
  | VUndefined
  | VNull
  | VBool (b : bool)
  | VNum (n : number)
  | VStr (s : string).

#[global] Instance number_eq_dec : EqDecision number.
Proof. solve_decision. Defined.

#[global] Instance value_eq_dec : EqDecision value.
Proof. solve_decision. Defined.

Inductive error : Type :=
  | Error (message : string)
  | TypeError (message : string).

(** The outcome of evaluating an expression: a value or a [throw]. *)
Inductive completion (A : Type) : Type :=
  | Normal (a : A)
  | Abrupt (e : error).
Arguments Normal {A} a.
Arguments Abrupt {A} e.

Definition number_eqb (a b : number) : bool :=
  match a, b with
  | Int x, Int y => x =? y
  | _, _ => false
  end.

Definition number_ltb (a b : number) : bool :=
  match a, b with
  | Int x, Int y => x <? y
  | _, _ => false
  end.

Definition number_leb (a b : number) : bool :=
  match a, b with
  | Int x, Int y => x <=? y
  | _, _ => false
  end.

Definition number_add (a b : number) : number :=
  match a, b with
  | Int x, Int y => Int (x + y)
  | _, _ => NaN
  end.

Definition number_sub (a b : number) : number :=
  match a, b with
  | Int x, Int y => Int (x - y)
  | _, _ => NaN
  end.

Definition number_mul (a b : number) : number :=
  match a, b with
  | Int x, Int y => Int (x * y)
  | _, _ => NaN
  end.

(** [Number::toString] in radix 10. *)
Definition NumberToString (n : number) : string :=
  match n with
  | NaN => "NaN"
  | Int z => NilZero.string_of_int (Z.to_int z)
  end.

Definition ToBoolean (v : value) : bool :=
  match v with
  | VUndefined | VNull => false
  | VBool b => b
  | VNum NaN => false
  | VNum (Int z) => negb (z =? 0)
  | VStr s => negb (String.eqb s "")
  end.

Definition ToString (v : value) : string :=
  match v with
  | VUndefined => "undefined"
  | VNull => "null"
  | VBool true => "true"
  | VBool false => "false"
  | VNum n => NumberToString n
  | VStr s => s
  end.

(** [_.isUndefined]. *)
Definition isUndefined (v : value) : bool :=
  match v with
  | VUndefined => true
  | _ => false
  end.

(** [x === y] on primitives. *)
Definition strict_eqb (x y : value) : bool :=
  match x, y with
  | VUndefined, VUndefined => true
  | VNull, VNull => true
  | VBool a, VBool b => Bool.eqb a b
  | VNum a, VNum b => number_eqb a b
  | VStr a, VStr b => String.eqb a b
  | _, _ => false
  end.

(** [v.valueOf()]: a primitive is boxed and unboxed again; there is nothing
    to box for [undefined] and [null]. *)
Definition valueOf (v : value) : completion value :=
  match v with
  | VUndefined => Abrupt (TypeError "Cannot read properties of undefined (reading 'valueOf')")
  | VNull => Abrupt (TypeError "Cannot read properties of null (reading 'valueOf')")
  | _ => Normal v
  end.

Section Coercions.

(** The conversion of a string to a number (the [StringNumericLiteral]
    grammar: fractions, exponents, hexadecimal, [Infinity]) is left to
    the platform. *)
Variable StringToNumber : string → number.

Definition ToNumber (v : value) : number :=
  match v with
  | VUndefined => NaN
  | VNull => Int 0
  | VBool true => Int 1
  | VBool false => Int 0
  | VNum n => n
  | VStr s => StringToNumber s
  end.

(** [x < y] on primitives: two strings are compared by code units,
    anything else as numbers. *)
Definition lt (x y : value) : bool :=
  match x, y with
  | VStr a, VStr b => String.ltb a b
  | _, _ => number_ltb (ToNumber x) (ToNumber y)
  end.

(** [x - y]. *)
Definition sub (x y : value) : number := number_sub (ToNumber x) (ToNumber y).

End Coercions.

(** *** [parseInt(string, 10)] *)

(** The white space and line terminators among the code units a response
    header can carry (a header value is a byte string). *)
Definition is_white_space (c : ascii) : bool :=
  match N_of_ascii c with
  | 9 | 10 | 11 | 12 | 13 | 32 | 160 => true
  | _ => false
  end%N.

Fixpoint trim_start (s : string) : string :=
  match s with
  | String c s' => if is_white_space c then trim_start s' else s
  | EmptyString => EmptyString
  end.

(** The longest prefix of [s] made of decimal digits. *)
Fixpoint digits_prefix (s : string) : uint :=
  match s with
  | String c s' =>
      match c with
      | "0"%char => D0 (digits_prefix s')
      | "1"%char => D1 (digits_prefix s')
      | "2"%char => D2 (digits_prefix s')
      | "3"%char => D3 (digits_prefix s')
      | "4"%char => D4 (digits_prefix s')
      | "5"%char => D5 (digits_prefix s')
      | "6"%char => D6 (digits_prefix s')
      | "7"%char => D7 (digits_prefix s')
      | "8"%char => D8 (digits_prefix s')
      | "9"%char => D9 (digits_prefix s')
      | _ => Nil
      end
  | EmptyString => Nil
  end.

(** Steps 2 to 4 of [parseInt]: strip leading white space, then read and
    remove a sign. *)
Definition strip_sign (s : string) : Z * string :=
  match s with
  | String "-"%char s' => (-1, s')
  | String "+"%char s' => (1, s')
  | _ => (1, s)
  end.

Definition parseInt10_string (s : string) : number :=
  let '(sign, rest) := strip_sign (trim_start s) in
  match digits_prefix rest with
  | Nil => NaN
  | d => Int (sign * Z.of_N (N.of_uint d))
  end.

(** [parseInt(v, 10)] for [v] a string or [null]: the argument is first
    converted with [ToString]. *)
Definition parseInt10 (v : option string) : number :=
  parseInt10_string (match v with Some s => s | None => "null" end).

End JS.

Import JS.

(** ** Objects and the heap

    Query parameters travel in plain objects that are shared by reference:
    [options.data] is handed in by the caller, [state.data] belongs to the
    collection, and [sync] can make the two one object. Objects live in a
    heap and are named by their location. *)

Definition loc := nat.

(** [o[k]]: a missing property reads as [undefined]. *)
Definition get (o : gmap string value) (k : string) : value :=
  default VUndefined (o !! k).

Definition deref (h : gmap loc (gmap string value)) (l : loc) : gmap string value :=
  default ∅ (h !! l).

(** A new object with the properties [o]. *)
Definition alloc (h : gmap loc (gmap string value)) (o : gmap string value)
  : loc * gmap loc (gmap string value) :=
  let l := fresh (dom h) in (l, <[l := o]> h).

(** [_.extend(dest, src)]: every property of [src] is assigned to the
    object at [dest], which is changed in place. *)
Definition extend (h : gmap loc (gmap string value)) (dest : loc) (src : gmap string value)
  : gmap loc (gmap string value) :=
  <[dest := src ∪ deref h dest]> h.

(** [dest[k] = v]. *)
Definition assign (h : gmap loc (gmap string value)) (dest : loc) (k : string) (v : value)
  : gmap loc (gmap string value) :=
  <[dest := <[k := v]> (deref h dest)]> h.

(** [delete dest[k]]. *)
Definition delete_property (h : gmap loc (gmap string value)) (dest : loc) (k : string)
  : gmap loc (gmap string value) :=
  <[dest := delete k (deref h dest)]> h.

(** ** The collection *)

(** A [Backbone.Model], reduced to its attributes. *)
Record Model : Type := { attributes : gmap string value }.

(** The properties a plain object inherits from [Object.prototype]: the
    standard's and those of its annex B. Each holds a function,
    [__proto__] the prototype itself. None is a key that the collection
    reads from a data object ([page], [orderby], [order]). *)
Definition Object_prototype : list string :=
  [ "constructor"; "hasOwnProperty"; "isPrototypeOf"; "propertyIsEnumerable";
    "toLocaleString"; "toString"; "valueOf";
    "__defineGetter__"; "__defineSetter__"; "__lookupGetter__"; "__lookupSetter__";
    "__proto__" ].

(** What [model.get] reads: a primitive, or the object that
    [Object.prototype] holds under a key. *)
Inductive Attribute : Type :=
  | primitive (v : value)
  | inherited (key : string).

(** [model.get(attr)], which is [this.attributes[attr]]: the property key
    is [attr] converted to a string; an attribute of the record's own is
    read first, then [Object.prototype]. *)
Definition Model_get (m : Model) (attr : value) : Attribute :=
  let key := ToString attr in
  match attributes m !! key with
  | Some v => primitive v
  | None =>
      if bool_decide (key ∈ Object_prototype) then inherited key
      else primitive VUndefined
  end.

(** [_.isUndefined], [x.valueOf()] and [x === y] on what [model.get]
    reads. An object is its own [valueOf()], and is identical to itself
    only; the two reads of a comparison use one key. *)
Definition Attribute_isUndefined (x : Attribute) : bool :=
  match x with
  | primitive v => isUndefined v
  | inherited _ => false
  end.

Definition Attribute_valueOf (x : Attribute) : completion Attribute :=
  match x with
  | primitive v =>
      match valueOf v with
      | Normal v' => Normal (primitive v')
      | Abrupt e => Abrupt e
      end
  | inherited key => Normal (inherited key)
  end.

Definition Attribute_strict_eqb (x y : Attribute) : bool :=
  match x, y with
  | primitive a, primitive b => strict_eqb a b
  | inherited j, inherited k => String.eqb j k
  | _, _ => false
  end.

(** [this.state]. The three counters hold [null] ([None]) or a number. *)
Record State : Type := {
  data : loc;
  currentPage : option number;
  totalPages : option number;
  totalObjects : option number
}.

Inductive Comparator : Type :=
  | DefaultComparator
  | CustomComparator (f : Model → Model → completion number).

(** The listener that [_initSortOnChange] registers:
    [function() { collection.sort(); }]. *)
Inductive Handler : Type :=
  | SortHandler.

Record Collection : Type := {
  state : State;
  parent : value;
  _initializedSortOnChange : bool;
  comparator : option Comparator;
  models : list Model;
  _events : list (string * Handler)
}.

Record World : Type := {
  heap : gmap loc (gmap string value);
  this : Collection
}.

(** Code that reads and writes the world and may throw; what was written
    before a [throw] stays written. *)
Definition M (A : Type) : Type := World → World * completion A.

Definition ret {A} (a : A) : M A := fun w => (w, Normal a).

Definition throw {A} (e : error) : M A := fun w => (w, Abrupt e).

Definition bind {A B} (m : M A) (k : A → M B) : M B :=
  fun w =>
    match m w with
    | (w', Normal a) => k a w'
    | (w', Abrupt e) => (w', Abrupt e)
    end.

#[global] Instance M_ret : MRet M := @ret.
#[global] Instance M_bind : MBind M := fun A B k m => bind m k.

Definition set_heap (h : gmap loc (gmap string value)) (w : World) : World :=
  {| heap := h; this := this w |}.

Definition set_this (c : Collection) (w : World) : World :=
  {| heap := heap w; this := c |}.

Definition set_state (s : State) (c : Collection) : Collection :=
  {| state := s; parent := parent c;
     _initializedSortOnChange := _initializedSortOnChange c;
     comparator := comparator c; models := models c; _events := _events c |}.

Definition set_parent (v : value) (c : Collection) : Collection :=
  {| state := state c; parent := v;
     _initializedSortOnChange := _initializedSortOnChange c;
     comparator := comparator c; models := models c; _events := _events c |}.

Definition set_initializedSortOnChange (b : bool) (c : Collection) : Collection :=
  {| state := state c; parent := parent c;
     _initializedSortOnChange := b;
     comparator := comparator c; models := models c; _events := _events c |}.

Definition set_comparator (k : option Comparator) (c : Collection) : Collection :=
  {| state := state c; parent := parent c;
     _initializedSortOnChange := _initializedSortOnChange c;
     comparator := k; models := models c; _events := _events c |}.

Definition set_models (ms : list Model) (c : Collection) : Collection :=
  {| state := state c; parent := parent c;
     _initializedSortOnChange := _initializedSortOnChange c;
     comparator := comparator c; models := ms; _events := _events c |}.

(** [collection.on(name, handler)]. *)
Definition on (name : string) (f : Handler) (c : Collection) : Collection :=
  {| state := state c; parent := parent c;
     _initializedSortOnChange := _initializedSortOnChange c;
     comparator := comparator c; models := models c;
     _events := _events c ++ [(name, f)] |}.

Definition set_data (l : loc) (s : State) : State :=
  {| data := l; currentPage := currentPage s;
     totalPages := totalPages s; totalObjects := totalObjects s |}.

Definition set_currentPage (n : option number) (s : State) : State :=
  {| data := data s; currentPage := n;
     totalPages := totalPages s; totalObjects := totalObjects s |}.

Definition set_totalPages (n : option number) (s : State) : State :=
  {| data := data s; currentPage := currentPage s;
     totalPages := n; totalObjects := totalObjects s |}.

Definition set_totalObjects (n : option number) (s : State) : State :=
  {| data := data s; currentPage := currentPage s;
     totalPages := totalPages s; totalObjects := n |}.

(** [self.state.f = v], for [f] one of the setters above. *)
Definition update_state (f : State → State) (w : World) : World :=
  set_this (set_state (f (state (this w))) (this w)) w.

(** [this.state.data], dereferenced. *)
Definition state_data (w : World) : gmap string value :=
  deref (heap w) (data (state (this w))).

(** The request object handed to a success callback. *)
Record jqXHR : Type := { getResponseHeader : string → option string }.

(** The request under construction, as a [beforeSend] hook sees it. *)
Record XHR : Type := { requestHeaders : list (string * string) }.

Definition setRequestHeader (name v : string) (xhr : XHR) : XHR :=
  {| requestHeaders := requestHeaders xhr ++ [(name, v)] |}.

Section WPApiBaseCollection.

(** What the platform and the framework own. *)
Variable StringToNumber : string → number.

(** The string that the object [Object.prototype] holds under a key is
    converted to, which for a function is the platform's to choose. *)
Variable inherited_text : string → string.

(** [Array.prototype.sort] with a comparison function that may throw;
    the order in which it compares is the platform's. *)
Variable Array_sort :
  (Model → Model → completion number) → list Model → list Model * completion unit.

(** [wpApiSettings.nonce]. *)
Variable nonce : option string.

(** The [this] of a callback, the body of a response and the [model]
    argument of [sync] are passed through untouched. *)
Variables Ctx Resp Target : Type.

(** [arguments] of a success callback: [( data, textStatus, request )]. *)
Record Args : Type := {
  response : Resp;
  textStatus : string;
  request : jqXHR
}.

Definition Callback : Type := Ctx → Args → M value.

Definition Hook : Type := XHR → World → (XHR * World) * completion value.

Record Options : Type := {
  options_data : option loc;
  options_success : option Callback;
  options_beforeSend : option Hook
}.

(** [{}] as an options object. *)
Definition no_options : Options :=
  {| options_data := None; options_success := None; options_beforeSend := None |}.

Definition set_options_data (l : option loc) (o : Options) : Options :=
  {| options_data := l; options_success := options_success o;
     options_beforeSend := options_beforeSend o |}.

Definition set_options_success (f : option Callback) (o : Options) : Options :=
  {| options_data := options_data o; options_success := f;
     options_beforeSend := options_beforeSend o |}.

Definition set_options_beforeSend (f : option Hook) (o : Options) : Options :=
  {| options_data := options_data o; options_success := options_success o;
     options_beforeSend := f |}.

(** The calls the collection ends in. *)
Inductive Call : Type :=
  | Backbone_sync (method : string) (model : Target) (options : Options)
  | this_fetch (options : Options).

(** *** [hasMore] *)
Definition hasMore (w : World) : value :=
  match totalPages (state (this w)), totalObjects (state (this w)),
        currentPage (state (this w)) with
  | Some tp, Some _, Some cp => VBool (number_ltb cp tp)
  | _, _, _ => VNull
  end.

(** *** [defaultComparator] *)

(** [x < y] on what [model.get] reads: an object is converted to a
    primitive first, which is its string. *)
Definition ToPrimitive (x : Attribute) : value :=
  match x with
  | primitive v => v
  | inherited key => VStr (inherited_text key)
  end.

Definition Attribute_lt (x y : Attribute) : bool :=
  JS.lt StringToNumber (ToPrimitive x) (ToPrimitive y).

Definition defaultComparator (w : World) (a b : Model) : completion number :=
  let orderby := get (state_data w) "orderby" in
  if negb (ToBoolean orderby) then
    Abrupt (Error "Unable to sort collection without orderby query param provided.")
  else
    let aValue := Model_get a orderby in
    let bValue := Model_get b orderby in
    if Attribute_isUndefined aValue || Attribute_isUndefined bValue then
      Abrupt (Error ("Model lacks specified orderby field: " ++ ToString orderby))
    else
      match Attribute_valueOf aValue with
      | Abrupt e => Abrupt e
      | Normal av =>
          match Attribute_valueOf bValue with
          | Abrupt e => Abrupt e
          | Normal bv =>
              let result :=
                if Attribute_strict_eqb av bv then Int 0
                else if Attribute_lt av bv then Int (-1) else Int 1 in
              let result :=
                if strict_eqb (VStr "desc") (get (state_data w) "order")
                then number_mul result (Int (-1)) else result in
              Normal result
          end
      end.

(** *** [Backbone.Collection.prototype.sort] *)
Definition comparator_function (w : World) (k : Comparator)
  : Model → Model → completion number :=
  match k with
  | DefaultComparator => defaultComparator w
  | CustomComparator f => f
  end.

Definition sort : M unit := fun w =>
  match comparator (this w) with
  | None => throw (Error "Cannot sort a set without a comparator") w
  | Some k =>
      let '(ms, r) := Array_sort (comparator_function w k) (models (this w)) in
      (set_this (set_models ms (this w)) w, r)
  end.

(** *** [_initSortOnChange] *)
Definition _initSortOnChange : M bool := fun w =>
  let collection := this w in
  if _initializedSortOnChange collection
     || negb (ToBoolean (get (state_data w) "orderby"))
  then (w, Normal false)
  else
    let w := match comparator collection with
             | None => set_this (set_comparator (Some DefaultComparator) (this w)) w
             | Some _ => w
             end in
    let w := set_this (on "sync change" SortHandler (this w)) w in
    (sort ;;
     ((fun w => (set_this (set_initializedSortOnChange true (this w)) w, Normal true))
        : M bool)) w.

(** *** [initialize] *)
Record InitOptions : Type := {
  init_parent : value;
  init_data : option loc
}.

(** The [options] argument: [undefined], [null], or a value whose
    properties can be read (an object; of any other value both [parent]
    and [data] read as [undefined]). *)
Inductive InitArgument : Type :=
  | init_undefined
  | init_null
  | init_options (o : InitOptions).

Definition initialize (_models : list Model) (options : InitArgument) : M unit :=
  fun w =>
    let '(l, h) := alloc (heap w) ∅ in
    let w := set_heap h w in
    let w := set_this (set_state {| data := l; currentPage := None;
                                    totalPages := None; totalObjects := None |}
                         (this w)) w in
    match options with
    | init_undefined =>
        let w := set_this (set_parent (VStr "") (this w)) w in
        (_initSortOnChange ;; (ret tt : M unit)) w
    | init_null =>
        (w, Abrupt (TypeError "Cannot read properties of null (reading 'parent')"))
    | init_options o =>
        let w := set_this (set_parent (init_parent o) (this w)) w in
        let w := match init_data o with
                 | Some src => set_heap (extend (heap w) l (deref (heap w) src)) w
                 | None => w
                 end in
        (_initSortOnChange ;; (ret tt : M unit)) w
    end.

(** *** [sync] *)

(** The hook installed when a nonce is configured. *)
Definition nonce_beforeSend (n : string) (beforeSend : option Hook) : Hook :=
  fun xhr w =>
    let xhr := setRequestHeader "X-WP-Nonce" n xhr in
    match beforeSend with
    | Some f => f xhr w
    | None => ((xhr, w), Normal VUndefined)
    end.

(** The success callback installed on a read. *)
Definition sync_success (success : option Callback) : Callback :=
  fun ctx arguments w =>
    let w := update_state
               (set_totalPages
                  (Some (parseInt10 (getResponseHeader (request arguments) "x-wp-totalpages"))))
               w in
    let w := update_state
               (set_totalObjects
                  (Some (parseInt10 (getResponseHeader (request arguments) "x-wp-total"))))
               w in
    let w := match currentPage (state (this w)) with
             | None => update_state (set_currentPage (Some (Int 1))) w
             | Some cp => update_state (set_currentPage (Some (number_add cp (Int 1)))) w
             end in
    match success with
    | Some f => f ctx arguments w
    | None => (w, Normal VUndefined)
    end.

(** The bookkeeping of a read before the request is sent: the stored
    query parameters are replaced and the counters reset or primed. The
    result carries the options, which have gained a [data] object if they
    had none; [sent] is where [options.data] is from then on. *)
Definition sync_read_state (options : Options) (w : World) : World * Options :=
  let '(w, options, sent) :=
    match options_data options with
    | Some src =>
        let '(l, h) := alloc (heap w) (deref (heap w) src) in
        let h := delete_property h l "page" in
        (update_state (set_data l) (set_heap h w), options, src)
    | None =>
        let '(l, h) := alloc (heap w) ∅ in
        (update_state (set_data l) (set_heap h w), set_options_data (Some l) options, l)
    end in
  let page := get (deref (heap w) sent) "page" in
  if isUndefined page then
    (update_state (set_totalObjects None)
       (update_state (set_totalPages None)
          (update_state (set_currentPage None) w)),
     options)
  else
    (update_state (set_currentPage (Some (JS.sub StringToNumber page (VNum (Int 1))))) w,
     options).

(** The part of [sync] that runs for a read before the request is handed
    to [Backbone.sync]. *)
Definition sync_read (options : Options) : M Options := fun w =>
  let '(w, options) := sync_read_state options w in
  (_initSortOnChange ;;
   (ret (set_options_success (Some (sync_success (options_success options))) options)
      : M Options)) w.

(** [sync], first part: the nonce header, for every method. *)
Definition sync_nonce (options : Options) : Options :=
  let beforeSend := options_beforeSend options in
  match nonce with
  | Some n => set_options_beforeSend (Some (nonce_beforeSend n beforeSend)) options
  | None => options
  end.

Definition sync (method : string) (model : Target) (options : option Options) : M Call :=
  let options := default no_options options in
  let options := sync_nonce options in
  if String.eqb "read" method then
    options ← sync_read options;
    (ret (Backbone_sync method model options) : M Call)
  else
    ret (Backbone_sync method model options).

(** *** [more] *)
Inductive Returned : Type :=
  | Returned_false
  | Returned_call (c : Call).

Definition more (options : option Options) : M Returned := fun w =>
  let options := default no_options options in
  let '(l, h) := match options_data options with
                 | Some l => (l, heap w)
                 | None => alloc (heap w) ∅
                 end in
  let options := set_options_data (Some l) options in
  let w := set_heap (extend h l (deref h (data (state (this w))))) w in
  if isUndefined (get (deref (heap w) l) "page") then
    if negb (ToBoolean (hasMore w)) then (w, Normal Returned_false)
    else
      let page :=
        match currentPage (state (this w)) with
        | None => Int 2
        | Some cp => if number_leb cp (Int 1) then Int 2 else number_add cp (Int 1)
        end in
      let w := set_heap (assign (heap w) l "page" (VNum page)) w in
      (w, Normal (Returned_call (this_fetch options)))
  else (w, Normal (Returned_call (this_fetch options))).

End WPApiBaseCollection.

Arguments Args : clear implicits.
Arguments Callback : clear implicits.
Arguments Options : clear implicits.
Arguments Call : clear implicits.
Arguments Returned : clear implicits.
Arguments no_options {Ctx Resp}.
Arguments set_options_data {Ctx Resp} l o.
Arguments set_options_success {Ctx Resp} f o.
Arguments set_options_beforeSend {Ctx Resp} f o.
Arguments sync_success {Ctx Resp} success ctx arguments w.
Arguments sync_read_state StringToNumber {Ctx Resp} options w.
Arguments sync_read StringToNumber inherited_text Array_sort {Ctx Resp} options w.
Arguments sync_nonce nonce {Ctx Resp} options.
Arguments sync StringToNumber inherited_text Array_sort nonce {Ctx Resp Target}
  method model options.
Arguments more {Ctx Resp Target} options w.
Arguments Backbone_sync {Ctx Resp Target} method model options.
Arguments this_fetch {Ctx Resp Target} options.
Arguments Returned_false {Ctx Resp Target}.
Arguments Returned_call {Ctx Resp Target} c.

(** ** Vocabulary of the statements *)

(** The order of numbers as a proposition; [NaN] is not ordered. *)
Definition number_lt (a b : number) : Prop :=
  match a, b with
  | Int x, Int y => x < y
  | _, _ => False
  end.

(** The natural ordering of two attribute values: that of the integers for
    two numbers, that of the dictionary for two strings, [false] before
    [true] for two booleans. Values of different kinds, [NaN], [null] and
    [undefined] have none. *)
Definition natural_order (x y : value) : option comparison :=
  match x, y with
  | VNum (Int a), VNum (Int b) => Some (a ?= b)
  | VStr s, VStr t => Some (String.compare s t)
  | VBool a, VBool b =>
      Some (match a, b with
            | false, true => Lt
            | true, false => Gt
            | _, _ => Eq
            end)
  | _, _ => None
  end.

Definition sign_of (c : comparison) : Z :=
  match c with
  | Eq => 0
  | Lt => -1
  | Gt => 1
  end.

(** A record from which the attribute [key] reads as [undefined]: it has
    no such attribute of its own, or an [undefined] one, and no object
    inherits a property of that name. *)
Definition lacks (m : Model) (key : string) : Prop :=
  attributes m !! key = Some VUndefined
  ∨ (attributes m !! key = None ∧ key ∉ Object_prototype).

(** A counter of the pagination state as a JavaScript value. *)
Definition counter_value (c : option number) : value :=
  match c with
  | Some n => VNum n
  | None => VNull
  end.

(** The object the caller passed as [options.data], if any. *)
Definition caller_data {Ctx Resp} (w : World) (options : option (Options Ctx Resp))
  : gmap string value :=
  match options ≫= options_data Ctx Resp with
  | Some l => deref (heap w) l
  | None => ∅
  end.

(** The caller's data with the stored query parameters applied on top. *)
Definition merged_data {Ctx Resp} (w : World) (options : option (Options Ctx Resp))
  : gmap string value :=
  state_data w ∪ caller_data w options.

(** The data object of the options a call ends in. *)
Definition sent_data {Ctx Resp Target} (w : World) (r : Returned Ctx Resp Target)
  : option (gmap string value) :=
  match r with
  | Returned_call (this_fetch o) => deref (heap w) <$> options_data Ctx Resp o
  | _ => None
  end.

(** The caller's own success callback run on [arguments], or nothing when
    there is none. *)
Definition invoke {Ctx Resp} (success : option (Callback Ctx Resp)) : Callback Ctx Resp :=
  fun ctx arguments w =>
    match success with
    | Some f => f ctx arguments w
    | None => (w, Normal VUndefined)
    end.

(** A call of [more] that ends in a [fetch] whose data has [page] set to [p]. *)
Definition requests_page {Ctx Resp Target} (options : option (Options Ctx Resp))
  (w : World) (p : number) : Prop :=
  ∃ w' r, more (Target := Target) options w = (w', Normal r)
          ∧ ∃ d, sent_data w' r = Some d ∧ d !! "page" = Some (VNum p).

(** A header value that is a count written as a base-10 integer. *)
Definition base10 (n : N) : string := NilEmpty.string_of_uint (N.to_uint n).

Definition is_decimal_digit (c : ascii) : bool :=
  ((48 <=? N_of_ascii c) && (N_of_ascii c <=? 57))%N.

Fixpoint all_decimal_digits (s : string) : bool :=
  match s with
  | EmptyString => true
  | String c s' => is_decimal_digit c && all_decimal_digits s'
  end.

(** A header value that is a base-10 integer and nothing else: one or more
    decimal digits. *)
Definition base10_integer (s : string) : bool :=
  negb (String.eqb s "") && all_decimal_digits s.

Definition starts_with_digit (s : string) : bool :=
  match s with
  | String c _ => is_decimal_digit c
  | EmptyString => false
  end.

(** A header from which no number can be read: it is missing, or what
    follows its leading white space and an optional sign does not start
    with a decimal digit. *)
Definition unreadable (header : option string) : bool :=
  match header with
  | None => true
  | Some s => negb (starts_with_digit (snd (strip_sign (trim_start s))))
  end.

(** ** Instances used to run the model *)

(** A platform without numeric strings. *)
Definition no_numeric_strings (_ : string) : number := NaN.

(** A platform on which a built-in function prints as native code. *)
Definition native_code (key : string) : string :=
  if String.eqb key "__proto__" then "[object Object]"
  else if String.eqb key "constructor" then "function Object() { [native code] }"
  else "function " ++ key ++ "() { [native code] }".

(** Insertion sort as one [Array.prototype.sort]: stable, and it stops at
    the first comparison that throws. *)
Fixpoint insert_sorted (cmp : Model → Model → completion number) (x : Model)
  (l : list Model) : completion (list Model) :=
  match l with
  | [] => Normal [x]
  | y :: l' =>
      match cmp x y with
      | Abrupt e => Abrupt e
      | Normal r =>
          if number_leb r (Int 0) then Normal (x :: y :: l')
          else match insert_sorted cmp x l' with
               | Normal l'' => Normal (y :: l'')
               | Abrupt e => Abrupt e
               end
      end
  end.

Fixpoint insertion_sort (cmp : Model → Model → completion number) (l : list Model)
  : completion (list Model) :=
  match l with
  | [] => Normal []
  | x :: l' =>
      match insertion_sort cmp l' with
      | Normal sorted => insert_sorted cmp x sorted
      | Abrupt e => Abrupt e
      end
  end.

Definition insertion_Array_sort (cmp : Model → Model → completion number)
  (l : list Model) : list Model * completion unit :=
  match insertion_sort cmp l with
  | Normal sorted => (sorted, Normal tt)
  | Abrupt e => (l, Abrupt e)
  end.

(** A collection object before [initialize] has run, in an empty heap. *)
Definition blank : World :=
  {| heap := ∅;
     this := {| state := {| data := 0%nat; currentPage := None;
                            totalPages := None; totalObjects := None |};
                parent := VUndefined;
                _initializedSortOnChange := false;
                comparator := None;
                models := [];
                _events := [] |} |}.

(** [new wp.api.WPApiBaseCollection()]. *)
Definition new_collection : World :=
  (initialize no_numeric_strings native_code insertion_Array_sort [] init_undefined blank).1.

(** Options that carry a data object and nothing else. *)
Definition data_only (l : loc) : Options unit unit :=
  {| options_data := Some l; options_success := None; options_beforeSend := None |}.

(** The world with one more object, and where that object is. *)
Definition with_object (o : gmap string value) (w : World) : loc * World :=
  let '(l, h) := alloc (heap w) o in (l, set_heap h w).

(** A response that carries the given two headers and no other. *)
Definition headers (totalpages total : option string) : jqXHR :=
  {| getResponseHeader := fun name =>
       if String.eqb name "x-wp-totalpages" then totalpages
       else if String.eqb name "x-wp-total" then total
       else None |}.

Definition response_with (totalpages total : option string) : Args unit :=
  {| response := tt; textStatus := "success"; request := headers totalpages total |}.

(** The example of the specification: page 3 is read, and the server
    answers with 5 pages and 97 objects in all. *)
Definition page3_request : loc * World :=
  with_object {[ "page" := VNum (Int 3) ]} new_collection.

Definition page3_sent : World * completion (Call unit unit unit) :=
  sync no_numeric_strings native_code insertion_Array_sort None "read" tt
    (Some (data_only page3_request.1)) page3_request.2.

Definition page3_of_5 : World :=
  (sync_success None tt (response_with (Some "5") (Some "97")) page3_sent.1).1.

(** A collection of two records whose stored query parameters ask for an
    ascending order by date, before sort-on-change is activated. *)
Definition ordered_by_date : World :=
  {| heap := {[ 0%nat := {[ "orderby" := VStr "date" ]} ]};
     this := set_models [ {| attributes := {[ "date" := VStr "2015-02-01" ]} |};
                          {| attributes := {[ "date" := VStr "2015-01-01" ]} |} ]
               (this blank) |}.

(** The same collection, its records to be ordered by [constructor]. *)
Definition ordered_by_constructor : World :=
  set_heap {[ 0%nat := {[ "orderby" := VStr "constructor" ]} ]} ordered_by_date.

Definition activated : World :=
  (_initSortOnChange no_numeric_strings native_code insertion_Array_sort ordered_by_date).1.

(** [new wp.api.WPApiBaseCollection( [], { data: { page: 2 } } )]. *)
Definition seed_page2 : loc * World :=
  with_object {[ "page" := VNum (Int 2) ]} blank.

Definition bootstrapped : World :=
  (initialize no_numeric_strings native_code insertion_Array_sort []
     (init_options {| init_parent := VUndefined; init_data := Some seed_page2.1 |})
     seed_page2.2).1.

(** ... followed by [more( { data: { page: 5 } } )]. *)
Definition page5_request : loc * World :=
  with_object {[ "page" := VNum (Int 5) ]} bootstrapped.

(** A read that [sync] is handed without data, its answer, and the
    options as [sync] left them: their [data] is the stored object. *)
Definition shared_sent : World * completion (Call unit unit unit) :=
  sync no_numeric_strings native_code insertion_Array_sort None "read" tt (Some no_options)
    new_collection.

Definition shared_options : Options unit unit :=
  match shared_sent.2 with
  | Normal (Backbone_sync _ _ o) => o
  | _ => no_options
  end.

Definition shared_answered : World :=
  (sync_success None tt (response_with (Some "5") (Some "97")) shared_sent.1).1.

(** A request for page 7 on the collection of the example. *)
Definition page7_request : loc * World :=
  with_object {[ "page" := VNum (Int 7); "per_page" := VNum (Int 10) ]} page3_of_5.

(** ** The framework's [fetch]

    [more] ends in [this.fetch( options )]. Of
    [Backbone.Collection.prototype.fetch] the collection relies on this
    much: the options, with a success callback of the framework's around
    the caller's, go to [this.sync( 'read', this, options )]; when the
    request succeeds the transport calls the [success] of the options it
    was handed. *)

Section Fetch.

Variable StringToNumber : string → number.
Variable inherited_text : string → string.
Variable Array_sort :
  (Model → Model → completion number) → list Model → list Model * completion unit.
Variable nonce : option string.
Variables Ctx Resp Target : Type.

(** The collection itself, as the [model] argument of [sync]. *)
Variable self : Target.

(** The callback [fetch] puts around the caller's [success]: it stores
    the records of the response, calls the caller's callback and triggers
    ["sync"]. *)
Variable fetch_success : option (Callback Ctx Resp) → Callback Ctx Resp.

Definition fetch (options : option (Options Ctx Resp)) : M (Call Ctx Resp Target) :=
  let options := default no_options options in
  let success := options_success Ctx Resp options in
  sync StringToNumber inherited_text Array_sort nonce "read" self
    (Some (set_options_success (Some (fetch_success success)) options)).

(** [more], followed into the [fetch] it ends in: the request that went
    out, if one did. *)
Definition more_fetch (options : option (Options Ctx Resp))
  : M (option (Call Ctx Resp Target)) := fun w =>
  match more (Target := Target) options w with
  | (w, Normal (Returned_call (this_fetch o))) =>
      match fetch (Some o) w with
      | (w, Normal c) => (w, Normal (Some c))
      | (w, Abrupt e) => (w, Abrupt e)
      end
  | (w, Normal _) => (w, Normal None)
  | (w, Abrupt e) => (w, Abrupt e)
  end.

(** The request [c] succeeds: the transport calls [options.success]. *)
Definition succeed (c : Call Ctx Resp Target) : Callback Ctx Resp :=
  match c with
  | Backbone_sync _ _ o => invoke (options_success Ctx Resp o)
  | this_fetch _ => invoke None
  end.

(** What a program does with a collection, one step at a time: the three
    requests, each with a data object or none and no callback of its own,
    and the arrival of the answer to a read, sent through [fetch] or
    through [sync] itself. *)
Inductive Operation : Type :=
  | do_sync (method : string) (data : option loc)
  | do_fetch (data : option loc)
  | do_more (data : option loc)
  | do_answer (through_fetch : bool) (ctx : Ctx) (arguments : Args Resp).

(** [{ data: data }], or [{}]. *)
Definition bare (data : option loc) : Options Ctx Resp :=
  set_options_data data no_options.

Definition run (op : Operation) (w : World) : World :=
  match op with
  | do_sync method data =>
      (sync StringToNumber inherited_text Array_sort nonce method self (Some (bare data)) w).1
  | do_fetch data => (fetch (Some (bare data)) w).1
  | do_more data => (more_fetch (Some (bare data)) w).1
  | do_answer through_fetch ctx arguments =>
      (sync_success (if through_fetch then Some (fetch_success None) else None)
         ctx arguments w).1
  end.

Fixpoint run_all (ops : list Operation) (w : World) : World :=
  match ops with
  | [] => w
  | op :: ops => run_all ops (run op w)
  end.

(** The page a request asks for. *)
Definition page_of (w : World) (c : Call Ctx Resp Target) : value :=
  match c with
  | Backbone_sync _ _ o | this_fetch o =>
      match options_data Ctx Resp o with
      | Some l => get (deref (heap w) l) "page"
      | None => VUndefined
      end
  end.

(** [more()] called once for each of [answers], each request answered
    with the next of them before the next call, until [more()] sends
    nothing: the world at the end and the pages asked for, in order. *)
Fixpoint walk (answers : list (Ctx * Args Resp)) (w : World) : World * list value :=
  match answers with
  | [] => (w, [])
  | (ctx, arguments) :: answers =>
      match more_fetch None w with
      | (w1, Normal (Some c)) =>
          let '(w2, pages) := walk answers (succeed c ctx arguments w1).1 in
          (w2, page_of w1 c :: pages)
      | (w1, _) => (w1, [])
      end
  end.

End Fetch.

Arguments fetch StringToNumber inherited_text Array_sort nonce {Ctx Resp Target}
  self fetch_success options.
Arguments more_fetch StringToNumber inherited_text Array_sort nonce {Ctx Resp Target}
  self fetch_success
  options w.
Arguments succeed {Ctx Resp Target} c ctx arguments w.
Arguments bare {Ctx Resp} data.
Arguments Operation : clear implicits.
Arguments do_sync {Ctx Resp} method data.
Arguments do_fetch {Ctx Resp} data.
Arguments do_more {Ctx Resp} data.
Arguments do_answer {Ctx Resp} through_fetch ctx arguments.
Arguments run StringToNumber inherited_text Array_sort nonce {Ctx Resp Target}
  self fetch_success op w.
Arguments run_all StringToNumber inherited_text Array_sort nonce {Ctx Resp Target}
  self fetch_success ops w.
Arguments page_of {Ctx Resp Target} w c.
Arguments walk StringToNumber inherited_text Array_sort nonce {Ctx Resp Target}
  self fetch_success
  answers w.

(** Where the data of the options is once [more] has made sure there is
    some ([options.data = options.data || {}]), and the heap then. *)
Definition more_data {Ctx Resp} (options : option (Options Ctx Resp)) (w : World)
  : loc * gmap loc (gmap string value) :=
  match options_data Ctx Resp (default no_options options) with
  | Some l => (l, heap w)
  | None => alloc (heap w) ∅
  end.

(** What [model.get] has read is something one can read [valueOf]
    from. *)
Definition has_value (x : Attribute) : bool :=
  match x with
  | primitive VUndefined | primitive VNull => false
  | _ => true
  end.

(** A callback that leaves the heap, the pagination state and the
    activation of sort-on-change alone, as the framework's does: it
    stores and sorts records. *)
Definition keeps_bookkeeping {Ctx Resp} (f : Callback Ctx Resp) : Prop :=
  ∀ ctx arguments w,
    heap (f ctx arguments w).1 = heap w
    ∧ state (this (f ctx arguments w).1) = state (this w)
    ∧ _initializedSortOnChange (this (f ctx arguments w).1)
      = _initializedSortOnChange (this w).

(** The framework's callback, reduced to storing the records. *)
Definition store_records (success : option (Callback unit (list Model)))
  : Callback unit (list Model) :=
  fun ctx arguments w =>
    invoke success ctx arguments
      (set_this (set_models (response (list Model) arguments) (this w)) w).

(** *** More instances *)

(** An answer that carries records and the two headers. *)
Definition records_with (ms : list Model) (totalpages total : option string)
  : Args (list Model) :=
  {| response := ms; textStatus := "success"; request := headers totalpages total |}.

(** A collection of posts: [fetch()] on a new collection, answered with
    the first of 4 pages and 31 posts in all. *)
Definition posts_requested : World * completion (Call unit (list Model) unit) :=
  fetch no_numeric_strings native_code insertion_Array_sort None tt store_records None new_collection.

Definition page_of_posts : Args (list Model) :=
  records_with [ {| attributes := {[ "title" := VStr "Hello" ]} |} ] (Some "4") (Some "31").

Definition posts_page1 : World :=
  match posts_requested with
  | (w, Normal c) => (succeed c tt page_of_posts w).1
  | (w, Abrupt _) => w
  end.

(** ... and an object [{ per_page: 10 }] to call [more] with. *)
Definition ten_per_page : loc * World :=
  with_object {[ "per_page" := VNum (Int 10) ]} posts_page1.

(** The collection ordered by date, with a record that has no date. *)
Definition with_undated_record : World :=
  set_this
    (set_models [ {| attributes := {[ "date" := VStr "2015-02-01" ]} |};
                  {| attributes := {[ "title" := VStr "Hello" ]} |} ]
       (this ordered_by_date))
    ordered_by_date.

(** The collection ordered by date, latest first. *)
Definition ordered_by_date_desc : World :=
  set_heap {[ 0%nat := {[ "orderby" := VStr "date"; "order" := VStr "desc" ]} ]}
    ordered_by_date.

(** ** Properties *)

(** Reads of a field after writes of fields. *)
Ltac fields :=
  cbn [heap this state data currentPage totalPages totalObjects parent
       _initializedSortOnChange comparator models _events
       set_heap set_this set_state update_state set_data set_currentPage
       set_totalPages set_totalObjects fst snd] in *.

(** *** The heap *)

Lemma alloc_fresh (h : gmap loc (gmap string value)) (o : gmap string value) :
  h !! (alloc h o).1 = None.
Proof.
  unfold alloc; simpl. apply not_elem_of_dom, is_fresh.
Qed.

Lemma deref_alloc_eq (h : gmap loc (gmap string value)) (o : gmap string value) :
  deref (alloc h o).2 (alloc h o).1 = o.
Proof.
  unfold deref, alloc; simpl. by rewrite lookup_insert_eq.
Qed.

Lemma deref_alloc_ne (h : gmap loc (gmap string value)) (o : gmap string value) (l : loc) :
  is_Some (h !! l) → deref (alloc h o).2 l = deref h l.
Proof.
  intros [x Hx]. unfold deref. unfold alloc at 1; simpl.
  rewrite lookup_insert_ne; [done|].
  intros Heq. pose proof (alloc_fresh h o) as Hf. unfold alloc in Hf; simpl in Hf.
  rewrite Heq in Hf. congruence.
Qed.

(** A new empty object is not told apart from no object at all. *)
Lemma deref_alloc_empty (h : gmap loc (gmap string value)) (l : loc) :
  deref (alloc h ∅).2 l = deref h l.
Proof.
  unfold deref. unfold alloc; simpl.
  destruct (decide (fresh (dom h) = l)) as [<-|Hne].
  - rewrite lookup_insert_eq. pose proof (alloc_fresh h ∅) as Hf.
    unfold alloc in Hf; simpl in Hf. by rewrite Hf.
  - by rewrite lookup_insert_ne.
Qed.

Lemma deref_extend_eq (h : gmap loc (gmap string value)) (l : loc) (src : gmap string value) :
  deref (extend h l src) l = src ∪ deref h l.
Proof. unfold extend, deref at 1. by rewrite lookup_insert_eq. Qed.

Lemma deref_assign_eq (h : gmap loc (gmap string value)) (l : loc) (k : string) (v : value) :
  deref (assign h l k v) l = <[k := v]> (deref h l).
Proof. unfold assign, deref at 1. by rewrite lookup_insert_eq. Qed.

Lemma deref_delete_property_eq (h : gmap loc (gmap string value)) (l : loc) (k : string) :
  deref (delete_property h l k) l = delete k (deref h l).
Proof. unfold delete_property, deref at 1. by rewrite lookup_insert_eq. Qed.

Lemma deref_delete_property_ne (h : gmap loc (gmap string value)) (l l' : loc) (k : string) :
  l ≠ l' → deref (delete_property h l k) l' = deref h l'.
Proof. intros Hne. unfold delete_property, deref at 1. by rewrite lookup_insert_ne. Qed.

Lemma deref_is_Some (h : gmap loc (gmap string value)) (l : loc) (k : string) :
  is_Some (deref h l !! k) → is_Some (h !! l).
Proof.
  unfold deref. destruct (h !! l); [eauto|]. simpl. rewrite lookup_empty. by intros [? ?].
Qed.

Lemma get_Some (o : gmap string value) (k : string) (v : value) :
  o !! k = Some v → get o k = v.
Proof. unfold get. by intros ->. Qed.

Lemma get_absent (o : gmap string value) (k : string) :
  o !! k = None → get o k = VUndefined.
Proof. unfold get. by intros ->. Qed.

Lemma get_None (o : gmap string value) (k : string) :
  o !! k = None → isUndefined (get o k) = true.
Proof. unfold get. by intros ->. Qed.

(** *** Numbers *)

Lemma number_ltb_lt (a b : number) : number_ltb a b = true ↔ number_lt a b.
Proof.
  destruct a, b; simpl; try (split; [discriminate|tauto]).
  apply Z.ltb_lt.
Qed.

Lemma number_ltb_Int (a b : number) :
  number_ltb a b = true → ∃ x y, a = Int x ∧ b = Int y ∧ x < y.
Proof.
  destruct a, b; simpl; try discriminate.
  intros H%Z.ltb_lt. eauto.
Qed.

Section Properties.

Variable StringToNumber : string → number.
Variable inherited_text : string → string.
Variable Array_sort :
  (Model → Model → completion number) → list Model → list Model * completion unit.
Variable nonce : option string.
Variables Ctx Resp Target : Type.

(** *** [hasMore] *)

(** C3. [hasMore] answers [null] as soon as one of the three counters is
    unset; with all three set it answers a boolean, [true] exactly when
    the current page is below the number of pages. *)
Theorem hasMore_null_or_compares (w : World) :
  let s := state (this w) in
  (currentPage s = None ∨ totalPages s = None ∨ totalObjects s = None →
   hasMore w = VNull)
  ∧ (∀ cp tp tobj,
       currentPage s = Some cp → totalPages s = Some tp → totalObjects s = Some tobj →
       hasMore w = VBool (number_ltb cp tp)
       ∧ (hasMore w = VBool true ↔ number_lt cp tp)
       ∧ (hasMore w = VBool false ↔ ¬ number_lt cp tp)).
Proof.
  intros s. unfold hasMore. fold s. split.
  - intros [H|[H|H]]; rewrite H; repeat case_match; done.
  - intros cp tp tobj -> -> ->. split; [done|].
    rewrite <- number_ltb_lt.
    destruct (number_ltb cp tp); split; split; try done; try congruence.
Qed.

(** *** [more] *)

(** The object [more] hands on holds the merged data once
    [_.extend( options.data, this.state.data )] has run. *)
Lemma more_merges (options : option (Options Ctx Resp)) (w : World) :
  ∀ l h,
    match options_data Ctx Resp (default no_options options) with
    | Some l => (l, heap w)
    | None => alloc (heap w) ∅
    end = (l, h) →
    deref (extend h l (deref h (data (state (this w))))) l = merged_data w options.
Proof.
  intros l h Hlh. rewrite deref_extend_eq. unfold merged_data, caller_data, state_data.
  destruct options as [o|]; cbn -[alloc] in *.
  - destruct (options_data Ctx Resp o) as [l0|].
    + by injection Hlh as <- <-.
    + assert (l = (alloc (heap w) ∅).1) as -> by (by rewrite Hlh).
      assert (h = (alloc (heap w) ∅).2) as -> by (by rewrite Hlh).
      by rewrite deref_alloc_eq, deref_alloc_empty.
  - assert (l = (alloc (heap w) ∅).1) as -> by (by rewrite Hlh).
    assert (h = (alloc (heap w) ∅).2) as -> by (by rewrite Hlh).
    by rewrite deref_alloc_eq, deref_alloc_empty.
Qed.

(** C5. With the current page unset, [more] on data without a page key
    returns [false], hands nothing to [fetch] and leaves the collection as
    it was: [hasMore] answers [null], which [more] reads as no further
    page, so the default to page 2 for an unset page is never reached. *)
Theorem more_unset_returns_false (options : option (Options Ctx Resp)) (w : World) :
  currentPage (state (this w)) = None →
  merged_data w options !! "page" = None →
  hasMore w = VNull
  ∧ ∃ w', more (Target := Target) options w = (w', Normal Returned_false)
          ∧ this w' = this w.
Proof.
  intros Hcp Hpage. split.
  { unfold hasMore. rewrite Hcp. by repeat case_match. }
  unfold more.
  destruct (match options_data Ctx Resp (default no_options options) with
            | Some l => (l, heap w) | None => alloc (heap w) ∅ end) as [l h] eqn:Hlh.
  pose proof (more_merges options w l h Hlh) as Hm.
  cbn [heap set_heap]. rewrite Hm, (get_None _ _ Hpage).
  unfold hasMore; cbn [this set_heap]. rewrite Hcp.
  eexists; split; [by repeat case_match|done].
Qed.

(** C4, as the code has it. On data without a page key [more] asks
    [hasMore] first. Unless the answer is [true] it returns [false] and
    calls nothing. When it is [true] the current page is a number below
    the number of pages, and [fetch] is called with the merged data and
    [page] set to 2 if the current page is at most 1, to the current page
    plus one otherwise. *)
Theorem more_requests_next_page (options : option (Options Ctx Resp)) (w : World) :
  merged_data w options !! "page" = None →
  (hasMore w ≠ VBool true →
   ∃ w', more (Target := Target) options w = (w', Normal Returned_false) ∧ this w' = this w)
  ∧ (hasMore w = VBool true →
     ∃ c t w' o,
       currentPage (state (this w)) = Some (Int c)
       ∧ totalPages (state (this w)) = Some (Int t)
       ∧ c < t
       ∧ more (Target := Target) options w = (w', Normal (Returned_call (this_fetch o)))
       ∧ this w' = this w
       ∧ sent_data w' (Returned_call (this_fetch (Target := Target) o))
         = Some (<["page" := VNum (Int (if c <=? 1 then 2 else c + 1))]>
                   (merged_data w options))
       ∧ requests_page (Target := Target) options w (Int (if c <=? 1 then 2 else c + 1))).
Proof.
  intros Hpage.
  assert (∀ l h,
    match options_data Ctx Resp (default no_options options) with
    | Some l => (l, heap w) | None => alloc (heap w) ∅ end = (l, h) →
    more (Target := Target) options w =
      let w1 := set_heap (extend h l (deref h (data (state (this w))))) w in
      if negb (ToBoolean (hasMore w)) then (w1, Normal Returned_false)
      else
        let page := match currentPage (state (this w)) with
                    | None => Int 2
                    | Some cp => if number_leb cp (Int 1) then Int 2
                                 else number_add cp (Int 1)
                    end in
        (set_heap (assign (heap w1) l "page" (VNum page)) w1,
         Normal (Returned_call (this_fetch
           (set_options_data (Some l) (default no_options options)))))) as Hmore.
  { intros l h Hlh. unfold more. rewrite Hlh.
    pose proof (more_merges options w l h Hlh) as Hm.
    cbn [heap set_heap]. by rewrite Hm, (get_None _ _ Hpage). }
  destruct (match options_data Ctx Resp (default no_options options) with
            | Some l => (l, heap w) | None => alloc (heap w) ∅ end) as [l h] eqn:Hlh.
  specialize (Hmore l h eq_refl). pose proof (more_merges options w l h Hlh) as Hm.
  split.
  - intros Hno. rewrite Hmore. cbn zeta.
    unfold hasMore in *.
    destruct (totalPages (state (this w))), (totalObjects (state (this w))),
      (currentPage (state (this w))) as [cp|]; cbn; eauto.
    destruct (number_ltb cp n); cbn; eauto. by destruct Hno.
  - intros Hyes. rewrite Hyes in Hmore. cbn zeta in Hmore. cbn [ToBoolean negb] in Hmore.
    unfold hasMore in Hyes.
    destruct (totalPages (state (this w))) as [tp|]; [|done].
    destruct (totalObjects (state (this w))) as [tobj|]; [|done].
    destruct (currentPage (state (this w))) as [cp|]; [|done].
    injection Hyes as Hlt. apply number_ltb_Int in Hlt as (c & t & -> & -> & Hlt).
    exists c, t. eexists. eexists. do 3 (split; [done|]).
    split; [exact Hmore|]. split; [done|].
    assert (∀ w' (o : Options Ctx Resp),
      more (Target := Target) options w = (w', Normal (Returned_call (this_fetch o))) →
      sent_data w' (Returned_call (this_fetch (Target := Target) o))
      = Some (<["page" := VNum (Int (if c <=? 1 then 2 else c + 1))]>
                (merged_data w options))) as Hsent.
    { intros w' o Ho. rewrite Hmore in Ho. injection Ho as <- <-.
      cbn. rewrite deref_assign_eq, Hm. by destruct (c <=? 1). }
    split; [by apply Hsent|].
    eexists _, _. split; [exact Hmore|]. eexists. split; [by apply Hsent|].
    by rewrite lookup_insert_eq.
Qed.

(** *** [_initSortOnChange] *)

(** The call touches neither the heap nor the pagination state, whatever
    its outcome. *)
Lemma initSortOnChange_frame (w : World) :
  heap (_initSortOnChange StringToNumber inherited_text Array_sort w).1 = heap w
  ∧ state (this (_initSortOnChange StringToNumber inherited_text Array_sort w).1) = state (this w).
Proof.
  unfold _initSortOnChange.
  destruct (_initializedSortOnChange (this w)
            || negb (ToBoolean (get (state_data w) "orderby"))); [done|].
  unfold mbind, M_bind, bind, sort.
  destruct (comparator (this w)) as [k|] eqn:Hk; cbn; rewrite ?Hk.
  all: match goal with
       | |- context [Array_sort ?f ?l] => destruct (Array_sort f l) as [ms [[]|e]]
       end; done.
Qed.

(** A call that answers [true] leaves the collection marked as activated. *)
Lemma initSortOnChange_true_marks (w w' : World) :
  _initSortOnChange StringToNumber inherited_text Array_sort w = (w', Normal true) →
  _initializedSortOnChange (this w') = true.
Proof.
  unfold _initSortOnChange.
  destruct (_initializedSortOnChange (this w)
            || negb (ToBoolean (get (state_data w) "orderby"))); [done|].
  unfold mbind, M_bind, bind, sort.
  destruct (comparator (this w)) as [k|] eqn:Hk; cbn; rewrite ?Hk.
  all: match goal with
       | |- context [Array_sort ?f ?l] => destruct (Array_sort f l) as [ms [[]|e]]
       end; [|done]; by intros [= <-].
Qed.

(** The guard of [_initSortOnChange]. *)
Lemma initSortOnChange_skips (w : World) :
  _initializedSortOnChange (this w) = true
  ∨ ToBoolean (get (state_data w) "orderby") = false →
  _initSortOnChange StringToNumber inherited_text Array_sort w = (w, Normal false).
Proof.
  intros [H|H]; unfold _initSortOnChange; rewrite H; [done|].
  by rewrite orb_true_r.
Qed.

(** C8. Activation is idempotent: on a collection that is already
    activated, or whose stored query parameters have no [orderby] key, or
    that a successful activation has just produced, [_initSortOnChange]
    returns [false] and leaves the whole world as it is: comparator,
    subscriptions and the order of the records included. *)
Theorem initSortOnChange_idempotent (w : World) :
  _initializedSortOnChange (this w) = true
  ∨ state_data w !! "orderby" = None
  ∨ (∃ w0, _initSortOnChange StringToNumber inherited_text Array_sort w0 = (w, Normal true)) →
  _initSortOnChange StringToNumber inherited_text Array_sort w = (w, Normal false).
Proof.
  intros H. apply initSortOnChange_skips.
  destruct H as [H|[H|[w0 H]]].
  - by left.
  - right. by rewrite (get_absent _ _ H).
  - left. exact (initSortOnChange_true_marks _ _ H).
Qed.

(** The first activation, when sorting succeeds: the default comparator is
    installed unless there is one, one listener is added for
    ["sync change"], the records are sorted once and the flag is set. *)
Lemma initSortOnChange_activates (w : World) (ms : list Model) :
  _initializedSortOnChange (this w) = false →
  ToBoolean (get (state_data w) "orderby") = true →
  let k := default DefaultComparator (comparator (this w)) in
  Array_sort (comparator_function StringToNumber inherited_text w k) (models (this w)) = (ms, Normal tt) →
  _initSortOnChange StringToNumber inherited_text Array_sort w =
    (set_this
       {| state := state (this w); parent := parent (this w);
          _initializedSortOnChange := true;
          comparator := Some k;
          models := ms;
          _events := _events (this w) ++ [("sync change", SortHandler)] |} w,
     Normal true).
Proof.
  intros Hi Ho k Hs. unfold _initSortOnChange. rewrite Hi, Ho. cbn [orb negb].
  unfold mbind, M_bind, bind, sort. subst k.
  destruct (comparator (this w)) as [k|] eqn:Hk; cbn in *.
  - rewrite Hk.
    replace (comparator_function StringToNumber inherited_text _ k)
      with (comparator_function StringToNumber inherited_text w k) by (by destruct k).
    rewrite Hs. unfold set_this, set_initializedSortOnChange; cbn. by rewrite Hk.
  - replace (defaultComparator StringToNumber inherited_text _)
      with (defaultComparator StringToNumber inherited_text w) by done.
    by rewrite Hs.
Qed.

(** *** [defaultComparator] *)

Lemma string_compare_refl (s : string) : String.compare s s = Eq.
Proof.
  induction s as [|c s IH]; [done|]. cbn.
  unfold Ascii.compare. by rewrite N.compare_refl.
Qed.

Lemma string_eqb_compare (s t : string) :
  String.eqb s t = true ↔ String.compare s t = Eq.
Proof.
  rewrite String.eqb_eq. split.
  - intros ->. apply string_compare_refl.
  - apply String.compare_eq_iff.
Qed.

(** On two values that are ordered, [===] and [<] read the order. *)
Lemma natural_order_strict_eqb (x y : value) (c : comparison) :
  natural_order x y = Some c →
  strict_eqb x y = match c with Eq => true | _ => false end.
Proof.
  destruct x as [| |p|[|i]|s], y as [| |q|[|j]|t]; try done; cbn; intros [= <-].
  - by destruct p, q.
  - destruct (Z.compare_spec i j); [by apply Z.eqb_eq | by apply Z.eqb_neq; lia ..].
  - destruct (String.compare s t) eqn:Hc.
    + by apply string_eqb_compare.
    + apply not_true_is_false. rewrite string_eqb_compare. congruence.
    + apply not_true_is_false. rewrite string_eqb_compare. congruence.
Qed.

Lemma natural_order_lt (x y : value) (c : comparison) :
  natural_order x y = Some c →
  JS.lt StringToNumber x y = match c with Lt => true | _ => false end.
Proof.
  destruct x as [| |p|[|i]|s], y as [| |q|[|j]|t]; try done; cbn; intros [= <-].
  - by destruct p, q.
  - destruct (Z.compare_spec i j); [apply Z.ltb_ge; lia | by apply Z.ltb_lt | apply Z.ltb_ge; lia].
  - unfold String.ltb. by destruct (String.compare s t).
Qed.

Lemma strict_eqb_desc (o : gmap string value) :
  strict_eqb (VStr "desc") (get o "order")
  = bool_decide (o !! "order" = Some (VStr "desc")).
Proof.
  unfold get.
  destruct (o !! "order") as [[| | | |s]|]; cbn [default from_option id strict_eqb];
    try by rewrite bool_decide_eq_false_2.
  destruct (String.eqb_spec "desc" s) as [<-|Hne].
  - by rewrite bool_decide_eq_true_2.
  - rewrite bool_decide_eq_false_2; [done|]. intros [= ->]. by apply Hne.
Qed.

(** What the comparator returns on two attribute values that are present
    and not [null]: the verdict of [===] and [<], negated for a
    descending order. *)
Lemma defaultComparator_returns (w : World) (a b : Model) (ob va vb : value) :
  state_data w !! "orderby" = Some ob → ToBoolean ob = true →
  attributes a !! ToString ob = Some va → attributes b !! ToString ob = Some vb →
  va ≠ VUndefined → vb ≠ VUndefined → va ≠ VNull → vb ≠ VNull →
  defaultComparator StringToNumber inherited_text w a b =
    Normal (number_mul
              (if strict_eqb va vb then Int 0
               else if JS.lt StringToNumber va vb then Int (-1) else Int 1)
              (if bool_decide (state_data w !! "order" = Some (VStr "desc"))
               then Int (-1) else Int 1)).
Proof.
  intros Hob Hb Ha Hb' Hua Hub Hna Hnb. unfold defaultComparator, Model_get.
  rewrite (get_Some _ _ _ Hob), Hb, Ha, Hb'.
  cbn [negb Attribute_isUndefined Attribute_valueOf].
  replace (isUndefined va) with false by (by destruct va).
  replace (isUndefined vb) with false by (by destruct vb).
  cbn [orb].
  replace (valueOf va) with (Normal va) by (by destruct va).
  replace (valueOf vb) with (Normal vb) by (by destruct vb).
  unfold Attribute_lt. cbn [Attribute_strict_eqb ToPrimitive].
  rewrite strict_eqb_desc.
  destruct (bool_decide _); destruct (strict_eqb va vb); [done| |done|];
    by destruct (JS.lt StringToNumber va vb).
Qed.

(** What the comparator does on a record that reads as lacking the
    attribute: it throws the second of its errors. *)
Lemma defaultComparator_lacks (w : World) (a b : Model) (ob : value) :
  state_data w !! "orderby" = Some ob → ToBoolean ob = true →
  lacks a (ToString ob) ∨ lacks b (ToString ob) →
  defaultComparator StringToNumber inherited_text w a b
  = Abrupt (Error ("Model lacks specified orderby field: " ++ ToString ob)).
Proof.
  intros Hob Hb Hlack. unfold defaultComparator.
  rewrite (get_Some _ _ _ Hob), Hb; cbn [negb].
  assert (∀ m, lacks m (ToString ob) → Attribute_isUndefined (Model_get m ob) = true)
    as Hundefined.
  { intros m [Hm|[Hm Hout]]; unfold Model_get; rewrite Hm; [done|].
    by rewrite bool_decide_eq_false_2. }
  destruct Hlack as [Hl|Hl]; rewrite (Hundefined _ Hl); [done|]. by rewrite orb_true_r.
Qed.

(** The comparator does not get as far as comparing when an attribute is
    [null]: reading [valueOf] from it throws. *)
Lemma defaultComparator_null_attribute (w : World) (a b : Model) (ob va vb : value) :
  state_data w !! "orderby" = Some ob → ToBoolean ob = true →
  attributes a !! ToString ob = Some va → attributes b !! ToString ob = Some vb →
  va ≠ VUndefined → vb ≠ VUndefined →
  va = VNull ∨ vb = VNull →
  defaultComparator StringToNumber inherited_text w a b
  = Abrupt (TypeError "Cannot read properties of null (reading 'valueOf')").
Proof.
  intros Hob Hb Ha Hb' Hua Hub Hnull. unfold defaultComparator, Model_get.
  rewrite (get_Some _ _ _ Hob), Hb, Ha, Hb'.
  cbn [negb Attribute_isUndefined Attribute_valueOf].
  replace (isUndefined va) with false by (by destruct va).
  replace (isUndefined vb) with false by (by destruct vb).
  cbn [orb].
  destruct Hnull as [->| ->]; [done|]. by destruct va.
Qed.

(** On two records of which neither has the attribute, when [orderby]
    names a property of [Object.prototype], both reads give the object
    that the prototype holds, which is identical to itself. *)
Lemma defaultComparator_inherited (w : World) (a b : Model) (ob : value) :
  state_data w !! "orderby" = Some ob → ToBoolean ob = true →
  ToString ob ∈ Object_prototype →
  attributes a !! ToString ob = None → attributes b !! ToString ob = None →
  defaultComparator StringToNumber inherited_text w a b = Normal (Int 0).
Proof.
  intros Hob Hb Hin Ha Hb'. unfold defaultComparator, Model_get.
  rewrite (get_Some _ _ _ Hob), Hb, Ha, Hb', (bool_decide_eq_true_2 _ Hin).
  cbn [negb Attribute_isUndefined Attribute_valueOf orb Attribute_strict_eqb].
  rewrite String.eqb_refl. by destruct (strict_eqb _ _).
Qed.


(** *** [parseInt] *)

Lemma digits_prefix_string_of_uint (d : uint) :
  digits_prefix (NilEmpty.string_of_uint d) = d.
Proof. induction d; cbn; congruence. Qed.

Lemma trim_start_string_of_uint (d : uint) :
  trim_start (NilEmpty.string_of_uint d) = NilEmpty.string_of_uint d.
Proof. by destruct d. Qed.

Lemma strip_sign_string_of_uint (d : uint) :
  strip_sign (NilEmpty.string_of_uint d) = (1, NilEmpty.string_of_uint d).
Proof. by destruct d. Qed.

Lemma to_uint_nonnil (n : N) : N.to_uint n ≠ Nil.
Proof.
  destruct n as [|p]; [done|]. apply DecimalPos.Unsigned.to_uint_nonnil.
Qed.

(** A count written in base 10 is read back as that count. *)
Lemma parseInt10_base10 (n : N) : parseInt10 (Some (base10 n)) = Int (Z.of_N n).
Proof.
  unfold parseInt10, parseInt10_string, base10.
  rewrite trim_start_string_of_uint, strip_sign_string_of_uint,
    digits_prefix_string_of_uint.
  pose proof (to_uint_nonnil n) as Hn. pose proof (DecimalN.Unsigned.of_to n) as Hof.
  destruct (N.to_uint n); [done|..]; rewrite Hof; f_equal; lia.
Qed.

Lemma digits_prefix_Nil (s : string) :
  digits_prefix s = Nil ↔ starts_with_digit s = false.
Proof.
  destruct s as [|c s]; [done|].
  destruct c as [[] [] [] [] [] [] [] []];
    match goal with
    | |- context [starts_with_digit (String ?c s)] =>
        let b := eval vm_compute in (is_decimal_digit c) in
        change (starts_with_digit (String c s)) with b
    end;
    cbn [digits_prefix]; split; congruence.
Qed.

(** [parseInt] answers [NaN] exactly on the headers from which no number
    can be read. *)
Lemma parseInt10_NaN (header : option string) :
  parseInt10 header = NaN ↔ unreadable header = true.
Proof.
  assert (∀ s, parseInt10_string s = NaN
               ↔ starts_with_digit (strip_sign (trim_start s)).2 = false) as Hs.
  { intros s. unfold parseInt10_string.
    destruct (strip_sign (trim_start s)) as [sign rest]. cbn [snd].
    rewrite <- digits_prefix_Nil. by destruct (digits_prefix rest). }
  destruct header as [s|]; unfold parseInt10, unreadable.
  - by rewrite Hs, negb_true_iff.
  - done.
Qed.

(** *** [sync] *)

(** What the success callback of a read does before it hands over to the
    caller's: both totals are parsed from the headers, the current page
    becomes 1 if it was unset and is advanced by one otherwise; nothing
    else changes, and nothing is thrown. *)
Lemma sync_success_bookkeeping (success : option (Callback Ctx Resp))
  (ctx : Ctx) (arguments : Args Resp) (w : World) :
  ∃ w',
    sync_success success ctx arguments w = invoke success ctx arguments w'
    ∧ heap w' = heap w
    ∧ data (state (this w')) = data (state (this w))
    ∧ totalPages (state (this w'))
      = Some (parseInt10 (getResponseHeader (request Resp arguments) "x-wp-totalpages"))
    ∧ totalObjects (state (this w'))
      = Some (parseInt10 (getResponseHeader (request Resp arguments) "x-wp-total"))
    ∧ currentPage (state (this w'))
      = Some (match currentPage (state (this w)) with
              | None => Int 1
              | Some cp => number_add cp (Int 1)
              end).
Proof.
  unfold sync_success, invoke. cbn.
  destruct (currentPage (state (this w))) as [cp|]; eexists; (split; [reflexivity|]); done.
Qed.

(** The options [sync_read_state] returns are the ones it was given, with
    a [data] object if they had none. *)
Lemma sync_read_state_options (options : Options Ctx Resp) (w : World) :
  options_success Ctx Resp (sync_read_state StringToNumber options w).2
  = options_success Ctx Resp options
  ∧ options_beforeSend Ctx Resp (sync_read_state StringToNumber options w).2
    = options_beforeSend Ctx Resp options
  ∧ (∀ src, options_data Ctx Resp options = Some src →
            options_data Ctx Resp (sync_read_state StringToNumber options w).2 = Some src).
Proof.
  unfold sync_read_state.
  destruct (options_data Ctx Resp options) as [src|] eqn:Hd.
  - destruct (alloc (heap w) (deref (heap w) src)) as [l h].
    destruct (isUndefined _); cbn; by rewrite ?Hd.
  - destruct (alloc (heap w) ∅) as [l h].
    destruct (isUndefined _); cbn; done.
Qed.

(** A read with a page: the current page is primed with the page before
    the requested one, and the stored query parameters are the caller's
    without the page. *)
Lemma sync_read_state_page (options : Options Ctx Resp) (w : World) (src : loc) (page : value) :
  options_data Ctx Resp options = Some src →
  deref (heap w) src !! "page" = Some page →
  isUndefined page = false →
  let w' := (sync_read_state StringToNumber options w).1 in
  currentPage (state (this w')) = Some (JS.sub StringToNumber page (VNum (Int 1)))
  ∧ totalPages (state (this w')) = totalPages (state (this w))
  ∧ totalObjects (state (this w')) = totalObjects (state (this w))
  ∧ state_data w' = delete "page" (deref (heap w) src).
Proof.
  intros Hd Hp Hu. unfold sync_read_state. rewrite Hd.
  assert (is_Some (heap w !! src)) as Hsrc by (eapply deref_is_Some; eauto).
  pose proof (deref_alloc_ne (heap w) (deref (heap w) src) src Hsrc) as Hne.
  pose proof (deref_alloc_eq (heap w) (deref (heap w) src)) as Heq.
  pose proof (alloc_fresh (heap w) (deref (heap w) src)) as Hf.
  destruct (alloc (heap w) (deref (heap w) src)) as [l h]. cbn [fst snd] in *.
  assert (l ≠ src) as Hl by (intros ->; destruct Hsrc; congruence).
  fields.
  rewrite (deref_delete_property_ne _ _ _ _ Hl), Hne, (get_Some _ _ _ Hp), Hu.
  unfold state_data; fields. by rewrite deref_delete_property_eq, Heq.
Qed.

(** A read without a page: the three counters are reset, and the stored
    query parameters are the caller's, or empty. *)
Lemma sync_read_state_no_page (options : Options Ctx Resp) (w : World) :
  caller_data w (Some options) !! "page" = None →
  let w' := (sync_read_state StringToNumber options w).1 in
  currentPage (state (this w')) = None
  ∧ totalPages (state (this w')) = None
  ∧ totalObjects (state (this w')) = None
  ∧ state_data w' = caller_data w (Some options).
Proof.
  unfold caller_data, sync_read_state. cbn [mbind option_bind].
  destruct (options_data Ctx Resp options) as [src|] eqn:Hd; intros Hp.
  - pose proof (deref_alloc_eq (heap w) (deref (heap w) src)) as Heq.
    pose proof (alloc_fresh (heap w) (deref (heap w) src)) as Hf.
    assert (deref (delete_property (alloc (heap w) (deref (heap w) src)).2
                     (alloc (heap w) (deref (heap w) src)).1 "page") src !! "page" = None)
      as Hsrc.
    { destruct (decide ((alloc (heap w) (deref (heap w) src)).1 = src)) as [<-|Hne].
      - rewrite deref_delete_property_eq. apply lookup_delete_eq.
      - rewrite (deref_delete_property_ne _ _ _ _ Hne).
        unfold deref at 1. unfold alloc in *; cbn in *.
        rewrite lookup_insert_ne by done. exact Hp. }
    destruct (alloc (heap w) (deref (heap w) src)) as [l h]. fields.
    rewrite (get_None _ _ Hsrc). unfold state_data; fields.
    rewrite deref_delete_property_eq, Heq. repeat (split; [done|]).
    by apply delete_id.
  - pose proof (deref_alloc_eq (heap w) ∅) as Heq.
    destruct (alloc (heap w) ∅) as [l h]. fields.
    rewrite (get_None (deref h l) "page") by (by rewrite Heq).
    unfold state_data; fields. by rewrite Heq.
Qed.

(** Between the bookkeeping and the call of [Backbone.sync] only
    [_initSortOnChange] runs; a throw of its sort is the one way a read
    does not reach [Backbone.sync]. *)
Lemma sync_read_outcome (model : Target) (options : option (Options Ctx Resp)) (w : World) :
  let options0 := default no_options options in
  let prepared := sync_read_state StringToNumber (sync_nonce nonce options0) w in
  let activated := _initSortOnChange StringToNumber inherited_text Array_sort prepared.1 in
  sync StringToNumber inherited_text Array_sort nonce "read" model options w
  = (activated.1,
     match activated.2 with
     | Normal _ =>
         Normal (Backbone_sync "read" model
                   (set_options_success
                      (Some (sync_success (options_success Ctx Resp options0)))
                      prepared.2))
     | Abrupt e => Abrupt e
     end).
Proof.
  intros options0 prepared activated.
  unfold sync. fold options0. cbn [String.eqb Ascii.eqb Bool.eqb].
  unfold mbind, M_bind, bind, sync_read. fold prepared.
  destruct prepared as [w1 o1] eqn:Hp. unfold mbind, M_bind, bind.
  subst activated. cbn [fst].
  assert (options_success Ctx Resp o1 = options_success Ctx Resp options0) as ->.
  { pose proof (sync_read_state_options (sync_nonce nonce options0) w) as [Hs _].
    fold prepared in Hs. rewrite Hp in Hs. cbn in Hs. rewrite Hs.
    unfold sync_nonce. by destruct nonce. }
  by destruct (_initSortOnChange StringToNumber inherited_text Array_sort w1) as [w2 [b|e]].
Qed.

(** After the bookkeeping of a read the stored query parameters are the
    caller's without the page, whether or not a page was asked for. *)
Lemma sync_read_state_stored (options : Options Ctx Resp) (w : World) :
  state_data (sync_read_state StringToNumber options w).1
  = delete "page" (caller_data w (Some options)).
Proof.
  unfold caller_data, sync_read_state. cbn [mbind option_bind].
  destruct (options_data Ctx Resp options) as [src|] eqn:Hd.
  - pose proof (deref_alloc_eq (heap w) (deref (heap w) src)) as Heq.
    destruct (alloc (heap w) (deref (heap w) src)) as [l h]. fields.
    destruct (isUndefined _); unfold state_data; fields;
      by rewrite deref_delete_property_eq, Heq.
  - pose proof (deref_alloc_eq (heap w) ∅) as Heq.
    destruct (alloc (heap w) ∅) as [l h]. fields.
    destruct (isUndefined _); unfold state_data; fields;
      by rewrite Heq, delete_empty.
Qed.

(** Every read leaves the stored query parameters without a page key,
    also when it ends in a throw of the sort. *)
Lemma sync_read_strips_page (model : Target) (options : option (Options Ctx Resp)) (w : World) :
  state_data (sync StringToNumber inherited_text Array_sort nonce "read" model options w).1 !! "page" = None.
Proof.
  rewrite sync_read_outcome. cbn zeta. cbn [fst].
  unfold state_data.
  destruct (initSortOnChange_frame
              (sync_read_state StringToNumber
                 (sync_nonce nonce (default no_options options)) w).1) as [-> ->].
  fold (state_data (sync_read_state StringToNumber
                 (sync_nonce nonce (default no_options options)) w).1).
  rewrite sync_read_state_stored. apply lookup_delete_eq.
Qed.

Lemma caller_data_nonce (options : option (Options Ctx Resp)) (w : World) :
  caller_data w (Some (sync_nonce nonce (default no_options options)))
  = caller_data w options.
Proof. unfold caller_data, sync_nonce. by destruct nonce, options. Qed.

(** The bookkeeping of a read leaves the collection as it is, the
    pagination state apart. *)
Lemma sync_read_state_collection (options : Options Ctx Resp) (w : World) :
  let w' := (sync_read_state StringToNumber options w).1 in
  _initializedSortOnChange (this w') = _initializedSortOnChange (this w)
  ∧ comparator (this w') = comparator (this w)
  ∧ models (this w') = models (this w)
  ∧ _events (this w') = _events (this w).
Proof.
  unfold sync_read_state.
  destruct (options_data Ctx Resp options) as [src|].
  - destruct (alloc (heap w) (deref (heap w) src)) as [l h].
    by destruct (isUndefined _).
  - destruct (alloc (heap w) ∅) as [l h]. by destruct (isUndefined _).
Qed.

(** A read reaches [Backbone.sync] when sort-on-change is already active,
    and when the data it carries has no [orderby]. *)
Lemma sync_read_returns (model : Target) (options : option (Options Ctx Resp)) (w : World) :
  _initializedSortOnChange (this w) = true
  ∨ caller_data w options !! "orderby" = None →
  ∃ o, (sync StringToNumber inherited_text Array_sort nonce "read" model options w).2
       = Normal (Backbone_sync "read" model o).
Proof.
  intros H. rewrite sync_read_outcome. cbn zeta. cbn [snd].
  rewrite initSortOnChange_skips; [cbn; eauto|].
  destruct H as [H|H].
  - left. by rewrite (proj1 (sync_read_state_collection _ w)).
  - right. rewrite sync_read_state_stored, caller_data_nonce.
    rewrite get_absent; [done|]. by rewrite lookup_delete_ne.
Qed.

(** C1. A read whose data has [page] set to [p] leaves the current page
    at [p - 1] when the request goes out. The success callback it
    installs, run on a response whose two headers are the counts [T_pages]
    and [T_objects] written in base 10, calls the caller's callback on the
    same arguments in a state where the current page is one more than it
    was ([null] counting as zero) and the totals are [T_pages] and
    [T_objects]; run on the state the request left, that is page
    [p - 1 + 1]. The request goes out unless the sort of a first
    activation of sort-on-change throws. *)
Theorem sync_read_with_page (model : Target) (options : Options Ctx Resp)
  (w : World) (src : loc) (p : value) :
  options_data Ctx Resp options = Some src →
  deref (heap w) src !! "page" = Some p →
  isUndefined p = false →
  let sent := sync StringToNumber inherited_text Array_sort nonce "read" model (Some options) w in
  let before := JS.sub StringToNumber p (VNum (Int 1)) in
  currentPage (state (this sent.1)) = Some before
  ∧ (∀ n, p = VNum (Int n) → before = Int (n - 1))
  ∧ (_initializedSortOnChange (this w) = true
     ∨ deref (heap w) src !! "orderby" = None →
     ∃ o, sent.2 = Normal (Backbone_sync "read" model o))
  ∧ ∀ call, sent.2 = Normal call →
      ∃ o cb,
        call = Backbone_sync "read" model o
        ∧ options_data Ctx Resp o = Some src
        ∧ options_success Ctx Resp o = Some cb
        ∧ ∀ (ctx : Ctx) (arguments : Args Resp) (wb : World) (T_pages T_objects : N),
            getResponseHeader (request Resp arguments) "x-wp-totalpages"
            = Some (base10 T_pages) →
            getResponseHeader (request Resp arguments) "x-wp-total"
            = Some (base10 T_objects) →
            ∃ w',
              cb ctx arguments wb
              = invoke (options_success Ctx Resp options) ctx arguments w'
              ∧ currentPage (state (this w'))
                = Some (number_add
                          (ToNumber StringToNumber
                             (counter_value (currentPage (state (this wb)))))
                          (Int 1))
              ∧ totalPages (state (this w')) = Some (Int (Z.of_N T_pages))
              ∧ totalObjects (state (this w')) = Some (Int (Z.of_N T_objects))
              ∧ (wb = sent.1 →
                 currentPage (state (this w')) = Some (number_add before (Int 1))).
Proof.
  intros Hd Hp Hu sent before.
  assert (currentPage (state (this sent.1)) = Some before) as Hcp.
  { subst sent. rewrite sync_read_outcome. cbn zeta. cbn [fst].
    change (default no_options (Some options)) with options.
    destruct (initSortOnChange_frame
                (sync_read_state StringToNumber (sync_nonce nonce options) w).1)
      as [_ ->].
    edestruct (sync_read_state_page (sync_nonce nonce options) w src p) as [-> _];
      [by unfold sync_nonce; destruct nonce|done|done|done]. }
  split; [exact Hcp|].
  split; [by intros n ->|].
  split.
  { intros H. apply sync_read_returns. unfold caller_data. cbn. by rewrite Hd. }
  intros call Hcall. subst sent. rewrite sync_read_outcome in Hcall, Hcp.
  cbn zeta in Hcall, Hcp. cbn [fst snd] in Hcall, Hcp.
  destruct (_initSortOnChange StringToNumber inherited_text Array_sort _).2 as [b|e]; [|done].
  injection Hcall as <-. eexists _, _. split; [reflexivity|].
  split.
  { cbn. apply sync_read_state_options. by unfold sync_nonce; destruct nonce. }
  split; [reflexivity|].
  intros ctx arguments wb T_pages T_objects Htp Hto.
  destruct (sync_success_bookkeeping (options_success Ctx Resp options) ctx arguments wb)
    as (w' & Hrun & _ & _ & Hp' & Ho' & Hc').
  exists w'. split; [exact Hrun|].
  rewrite Hp', Ho', Hc', Htp, Hto, !parseInt10_base10.
  split; [by destruct (currentPage (state (this wb)))|].
  do 2 (split; [done|]).
  intros ->. rewrite sync_read_outcome. cbn zeta. cbn [fst]. by rewrite Hcp.
Qed.

(** C2. A read whose data, the caller's or the empty object put in its
    place, has no page key resets the three counters to [null] before the
    request goes out. The success callback it installs, run while the
    current page is still unset, as it is in the state the request left,
    calls the caller's callback on the same arguments in a state where the
    current page is 1. The request goes out unless the sort of a first
    activation of sort-on-change throws. *)
Theorem sync_read_without_page (model : Target) (options : option (Options Ctx Resp))
  (w : World) :
  caller_data w options !! "page" = None →
  let sent := sync StringToNumber inherited_text Array_sort nonce "read" model options w in
  currentPage (state (this sent.1)) = None
  ∧ totalPages (state (this sent.1)) = None
  ∧ totalObjects (state (this sent.1)) = None
  ∧ (_initializedSortOnChange (this w) = true
     ∨ caller_data w options !! "orderby" = None →
     ∃ o, sent.2 = Normal (Backbone_sync "read" model o))
  ∧ ∀ call, sent.2 = Normal call →
      ∃ o cb,
        call = Backbone_sync "read" model o
        ∧ options_success Ctx Resp o = Some cb
        ∧ (∀ (ctx : Ctx) (arguments : Args Resp) (wb : World),
             currentPage (state (this wb)) = None →
             ∃ w',
               cb ctx arguments wb
               = invoke (options ≫= options_success Ctx Resp) ctx arguments w'
               ∧ currentPage (state (this w')) = Some (Int 1))
        ∧ (∀ (ctx : Ctx) (arguments : Args Resp),
             ∃ w',
               cb ctx arguments sent.1
               = invoke (options ≫= options_success Ctx Resp) ctx arguments w'
               ∧ currentPage (state (this w')) = Some (Int 1)).
Proof.
  intros Hp sent.
  assert (currentPage (state (this sent.1)) = None
          ∧ totalPages (state (this sent.1)) = None
          ∧ totalObjects (state (this sent.1)) = None) as (Hcp & Htp & Hto).
  { subst sent. rewrite sync_read_outcome. cbn zeta. cbn [fst].
    destruct (initSortOnChange_frame
                (sync_read_state StringToNumber
                   (sync_nonce nonce (default no_options options)) w).1) as [_ ->].
    rewrite <- caller_data_nonce in Hp.
    by destruct (sync_read_state_no_page _ w Hp) as (-> & -> & -> & _). }
  do 3 (split; [done|]).
  split; [by apply sync_read_returns|].
  assert (options ≫= options_success Ctx Resp
          = options_success Ctx Resp (default no_options options)) as Hs
    by (by destruct options).
  assert (∀ (ctx : Ctx) (arguments : Args Resp) (wb : World),
            currentPage (state (this wb)) = None →
            ∃ w',
              sync_success (options_success Ctx Resp (default no_options options))
                ctx arguments wb
              = invoke (options ≫= options_success Ctx Resp) ctx arguments w'
              ∧ currentPage (state (this w')) = Some (Int 1)) as Hrun.
  { intros ctx arguments wb Hwb.
    destruct (sync_success_bookkeeping
                (options_success Ctx Resp (default no_options options)) ctx arguments wb)
      as (w' & Hrun & _ & _ & _ & _ & Hc').
    exists w'. rewrite Hs. split; [exact Hrun|]. by rewrite Hc', Hwb. }
  intros call Hcall. subst sent. rewrite sync_read_outcome in Hcall.
  cbn zeta in Hcall. cbn [fst snd] in Hcall.
  destruct (_initSortOnChange StringToNumber inherited_text Array_sort _).2 as [b|e]; [|done].
  injection Hcall as <-. eexists _, _. do 2 (split; [reflexivity|]).
  split; [exact Hrun|]. intros ctx arguments. by apply Hrun.
Qed.

(** C10, as the code has it. When a header of the response is missing, or
    what follows its leading white space and an optional sign does not
    start with a decimal digit, the success callback of a read stores
    [NaN] as the total that header stands for. It throws nothing of its
    own, still sets or advances the current page, and ends in the
    caller's callback on the same arguments, if there is one. *)
Theorem sync_success_unreadable_header (success : option (Callback Ctx Resp))
  (ctx : Ctx) (arguments : Args Resp) (w : World) :
  unreadable (getResponseHeader (request Resp arguments) "x-wp-totalpages") = true
  ∨ unreadable (getResponseHeader (request Resp arguments) "x-wp-total") = true →
  ∃ w',
    sync_success success ctx arguments w = invoke success ctx arguments w'
    ∧ (unreadable (getResponseHeader (request Resp arguments) "x-wp-totalpages") = true →
       totalPages (state (this w')) = Some NaN)
    ∧ (unreadable (getResponseHeader (request Resp arguments) "x-wp-total") = true →
       totalObjects (state (this w')) = Some NaN)
    ∧ currentPage (state (this w'))
      = Some (match currentPage (state (this w)) with
              | None => Int 1
              | Some cp => number_add cp (Int 1)
              end)
    ∧ (success = None → sync_success success ctx arguments w = (w', Normal VUndefined))
    ∧ (totalPages (state (this w')) = Some NaN ∨ totalObjects (state (this w')) = Some NaN).
Proof.
  intros Hbad.
  destruct (sync_success_bookkeeping success ctx arguments w)
    as (w' & Hrun & _ & _ & Hp' & Ho' & Hc').
  assert (unreadable (getResponseHeader (request Resp arguments) "x-wp-totalpages") = true →
          totalPages (state (this w')) = Some NaN) as Hpages
    by (intros H%parseInt10_NaN; by rewrite Hp', H).
  assert (unreadable (getResponseHeader (request Resp arguments) "x-wp-total") = true →
          totalObjects (state (this w')) = Some NaN) as Hobjects
    by (intros H%parseInt10_NaN; by rewrite Ho', H).
  exists w'. split; [exact Hrun|]. do 3 (split; [done|]).
  split; [intros ->; by rewrite Hrun|].
  destruct Hbad; [left|right]; auto.
Qed.

(** When the merged data has a page, [more] asks [hasMore] nothing and
    hands exactly the merged data to [fetch]. *)
Lemma more_with_page (options : option (Options Ctx Resp)) (w : World) :
  isUndefined (get (merged_data w options) "page") = false →
  ∃ w' o,
    more (Target := Target) options w = (w', Normal (Returned_call (this_fetch o)))
    ∧ this w' = this w
    ∧ sent_data w' (Returned_call (this_fetch (Target := Target) o))
      = Some (merged_data w options).
Proof.
  intros Hpage. unfold more.
  destruct (match options_data Ctx Resp (default no_options options) with
            | Some l => (l, heap w) | None => alloc (heap w) ∅ end) as [l h] eqn:Hlh.
  pose proof (more_merges options w l h Hlh) as Hm.
  cbn [heap set_heap]. rewrite Hm, Hpage.
  eexists _, _. split; [reflexivity|]. split; [done|]. cbn. by rewrite Hm.
Qed.

(** The part of C7 that holds. While the stored query parameters have no
    page key, a page the caller supplies survives the merge, and every
    key the stored parameters have is sent with the stored value. *)
Lemma more_keeps_caller_page (options : option (Options Ctx Resp)) (w : World) (page : value) :
  state_data w !! "page" = None →
  caller_data w options !! "page" = Some page →
  isUndefined page = false →
  ∃ w' o d,
    more (Target := Target) options w = (w', Normal (Returned_call (this_fetch o)))
    ∧ sent_data w' (Returned_call (this_fetch (Target := Target) o)) = Some d
    ∧ d = state_data w ∪ caller_data w options
    ∧ d !! "page" = Some page
    ∧ (∀ k v, state_data w !! k = Some v → d !! k = Some v)
    ∧ (∀ k, state_data w !! k = None → d !! k = caller_data w options !! k).
Proof.
  intros Hs Hc Hu.
  assert (merged_data w options !! "page" = Some page) as Hm.
  { unfold merged_data. by rewrite lookup_union_r. }
  destruct (more_with_page options w) as (w' & o & Hmore & _ & Hsent).
  { by rewrite (get_Some _ _ _ Hm). }
  exists w', o, (merged_data w options). do 3 (split; [done|]).
  split; [done|]. unfold merged_data. split.
  - intros k v Hk. by apply lookup_union_Some_l.
  - intros k Hk. by apply lookup_union_r.
Qed.

(** A read without data makes [options.data] and [state.data] one object. *)
Lemma sync_read_shares_data (model : Target) (options : option (Options Ctx Resp))
  (w : World) (o : Options Ctx Resp) :
  options ≫= options_data Ctx Resp = None →
  (sync StringToNumber inherited_text Array_sort nonce "read" model options w).2
  = Normal (Backbone_sync "read" model o) →
  options_data Ctx Resp o
  = Some (data (state (this (sync StringToNumber inherited_text Array_sort nonce "read" model options w).1))).
Proof.
  intros Hnone. rewrite sync_read_outcome. cbn zeta. cbn [fst snd].
  destruct (initSortOnChange_frame
              (sync_read_state StringToNumber
                 (sync_nonce nonce (default no_options options)) w).1) as [_ ->].
  destruct (_initSortOnChange StringToNumber inherited_text Array_sort _).2 as [b|e]; [|done].
  intros [= <-]. cbn.
  assert (options_data Ctx Resp (sync_nonce nonce (default no_options options)) = None)
    as Hd by (unfold sync_nonce; by destruct nonce, options).
  unfold sync_read_state. rewrite Hd.
  destruct (alloc (heap w) ∅) as [l h]. by destruct (isUndefined _).
Qed.

(** With a nonce configured, the options every [sync] hands on carry a
    [beforeSend] that sets the [X-WP-Nonce] header and then runs the
    caller's hook, if any, on the same request. *)
Lemma sync_sets_nonce_header (method : string) (model : Target)
  (options : option (Options Ctx Resp)) (w : World) (n : string) :
  nonce = Some n →
  ∀ call, (sync StringToNumber inherited_text Array_sort nonce method model options w).2 = Normal call →
    ∃ o hook,
      call = Backbone_sync method model o
      ∧ options_beforeSend Ctx Resp o = Some hook
      ∧ ∀ xhr wb,
          hook xhr wb
          = match options ≫= options_beforeSend Ctx Resp with
            | Some f => f (setRequestHeader "X-WP-Nonce" n xhr) wb
            | None => ((setRequestHeader "X-WP-Nonce" n xhr, wb), Normal VUndefined)
            end.
Proof.
  intros Hn call.
  assert (options ≫= options_beforeSend Ctx Resp
          = options_beforeSend Ctx Resp (default no_options options)) as ->
    by (by destruct options).
  assert (options_beforeSend Ctx Resp (sync_nonce nonce (default no_options options))
          = Some (nonce_beforeSend n
                    (options_beforeSend Ctx Resp (default no_options options)))) as Hhook
    by (unfold sync_nonce; by rewrite Hn).
  unfold sync. destruct (String.eqb "read" method) eqn:Hm.
  - apply String.eqb_eq in Hm as <-.
    change ((sync_read StringToNumber inherited_text Array_sort
               (sync_nonce nonce (default no_options options))
             ≫= λ o, (ret (Backbone_sync "read" model o) : M _)) w)
      with (sync StringToNumber inherited_text Array_sort nonce "read" model options w).
    rewrite sync_read_outcome. cbn zeta. cbn [snd].
    destruct (_initSortOnChange StringToNumber inherited_text Array_sort _).2 as [b|e]; [|done].
    intros [= <-]. eexists _, _. split; [reflexivity|]. split; [|reflexivity].
    cbn. by rewrite (proj1 (proj2 (sync_read_state_options _ w))).
  - intros [= <-]. eexists _, _. split; [reflexivity|]. split; [exact Hhook|reflexivity].
Qed.

(** An [orderby] that is set to an empty value counts as none. *)
Lemma defaultComparator_falsy_orderby (w : World) (a b : Model) :
  ToBoolean (get (state_data w) "orderby") = false →
  defaultComparator StringToNumber inherited_text w a b
  = Abrupt (Error "Unable to sort collection without orderby query param provided.").
Proof. intros H. unfold defaultComparator. by rewrite H. Qed.

(** *** What [sync] leaves alone *)

(** The heap after the bookkeeping of a read: one object more, which is
    the stored query parameters, and every object that existed as it was. *)
Lemma sync_read_state_heap (options : Options Ctx Resp) (w : World) :
  let w' := (sync_read_state StringToNumber options w).1 in
  heap w !! data (state (this w')) = None
  ∧ ∀ l, is_Some (heap w !! l) → heap w' !! l = heap w !! l.
Proof.
  unfold sync_read_state.
  destruct (options_data Ctx Resp options) as [src|].
  - pose proof (alloc_fresh (heap w) (deref (heap w) src)) as Hf.
    unfold alloc in *. cbn [fst snd] in *. unfold delete_property.
    destruct (isUndefined _); fields; (split; [exact Hf|]);
      intros l [x Hx]; rewrite !lookup_insert_ne; congruence.
  - pose proof (alloc_fresh (heap w) ∅) as Hf.
    unfold alloc in *. cbn [fst snd] in *.
    destruct (isUndefined _); fields; (split; [exact Hf|]);
      intros l [x Hx]; rewrite !lookup_insert_ne; congruence.
Qed.

(** The stored query parameters after a read, whether or not the sort
    it may start throws: the caller's data without the page. *)
Lemma sync_read_stored (model : Target) (options : option (Options Ctx Resp)) (w : World) :
  state_data (sync StringToNumber inherited_text Array_sort nonce "read" model options w).1
  = delete "page" (caller_data w options).
Proof.
  rewrite sync_read_outcome. cbn zeta. cbn [fst].
  set (o := sync_nonce nonce (default no_options options)).
  destruct (initSortOnChange_frame (sync_read_state StringToNumber o w).1) as [Hh Hs].
  unfold state_data. rewrite Hh, Hs.
  fold (state_data (sync_read_state StringToNumber o w).1).
  subst o. by rewrite sync_read_state_stored, caller_data_nonce.
Qed.

(** A read stores a copy of the data. Whatever the options, the stored
    query parameters after the bookkeeping of [sync( 'read', ... )] are a
    new object that holds the caller's data without the page; no data
    object that existed before is changed, the caller's, page included,
    among them. The options are changed: as [sync] hands them to
    [Backbone.sync] their [success] is the callback of the read around
    the caller's, and their [data] is the caller's object or, for want of
    one, the stored object itself. *)
Theorem sync_read_stores_copy (model : Target) (options : option (Options Ctx Resp))
  (w : World) :
  let w' := (sync StringToNumber inherited_text Array_sort nonce "read" model options w).1 in
  state_data w' = delete "page" (caller_data w options)
  ∧ heap w !! data (state (this w')) = None
  ∧ (∀ l, is_Some (heap w !! l) → heap w' !! l = heap w !! l)
  ∧ (∀ src, options ≫= options_data Ctx Resp = Some src → is_Some (heap w !! src) →
       data (state (this w')) ≠ src ∧ deref (heap w') src = caller_data w options)
  ∧ ∀ o,
      (sync StringToNumber inherited_text Array_sort nonce "read" model options w).2
      = Normal (Backbone_sync "read" model o) →
      options_success Ctx Resp o
      = Some (sync_success (options ≫= options_success Ctx Resp))
      ∧ options_data Ctx Resp o
        = Some (default (data (state (this w'))) (options ≫= options_data Ctx Resp)).
Proof.
  intros w'. split; [apply sync_read_stored|].
  assert (∀ o,
            (sync StringToNumber inherited_text Array_sort nonce "read" model options w).2
            = Normal (Backbone_sync "read" model o) →
            options_success Ctx Resp o
            = Some (sync_success (options ≫= options_success Ctx Resp))
            ∧ options_data Ctx Resp o
              = Some (default (data (state (this w'))) (options ≫= options_data Ctx Resp)))
    as Hoptions.
  { intros o Ho. split.
    - rewrite sync_read_outcome in Ho. cbn zeta in Ho. cbn [snd] in Ho.
      destruct (_initSortOnChange StringToNumber inherited_text Array_sort _).2; [|done].
      injection Ho as <-. cbn. by destruct options.
    - destruct (options ≫= options_data Ctx Resp) as [src|] eqn:Hsrc; cbn [default].
      + rewrite sync_read_outcome in Ho. cbn zeta in Ho. cbn [snd] in Ho.
        destruct (_initSortOnChange StringToNumber inherited_text Array_sort _).2; [|done].
        injection Ho as <-. cbn.
        destruct (sync_read_state_options (sync_nonce nonce (default no_options options)) w)
          as (_ & _ & Hd).
        apply Hd. unfold sync_nonce. by destruct nonce, options.
      + by apply (sync_read_shares_data model options w o). }
  subst w'. rewrite sync_read_outcome in *. cbn zeta in *. cbn [fst] in *.
  set (o := sync_nonce nonce (default no_options options)) in *.
  destruct (initSortOnChange_frame (sync_read_state StringToNumber o w).1) as [Hh Hs].
  destruct (sync_read_state_heap o w) as [Hnew Hold].
  rewrite Hs, Hh in *. split; [exact Hnew|]. split; [exact Hold|].
  split; [|exact Hoptions].
  intros src Hsrc Hlive. split.
  - intros Heq. rewrite Heq in Hnew. destruct Hlive. congruence.
  - unfold caller_data. rewrite Hsrc. unfold deref. by rewrite (Hold src Hlive).
Qed.

(** Only reads touch the bookkeeping. A [sync] with any other method
    returns with the world as it was, and hands the caller's data and
    success callback on as they are. *)
Theorem sync_other_method_changes_nothing (method : string) (model : Target)
  (options : option (Options Ctx Resp)) (w : World) :
  method ≠ "read" →
  ∃ o,
    sync StringToNumber inherited_text Array_sort nonce method model options w
    = (w, Normal (Backbone_sync method model o))
    ∧ options_data Ctx Resp o = options ≫= options_data Ctx Resp
    ∧ options_success Ctx Resp o = options ≫= options_success Ctx Resp
    ∧ (nonce = None →
       options_beforeSend Ctx Resp o = options ≫= options_beforeSend Ctx Resp).
Proof.
  intros Hm. unfold sync.
  destruct (String.eqb_spec "read" method) as [<-|_]; [done|].
  eexists. split; [reflexivity|].
  unfold sync_nonce. destruct nonce, options; cbn; repeat split; done.
Qed.

(** *** What [more] does to the heap and to the collection *)

(** [more] in full, by the cases it distinguishes. *)
Lemma more_outcome (options : option (Options Ctx Resp)) (w : World) :
  let l := (more_data options w).1 in
  let h := (more_data options w).2 in
  let o := set_options_data (Some l) (default no_options options) in
  let w1 := set_heap (extend h l (state_data w)) w in
  deref (heap w1) l = merged_data w options
  ∧ (∀ l', l' ≠ l → is_Some (heap w !! l') → heap w1 !! l' = heap w !! l')
  ∧ more (Target := Target) options w
    = if isUndefined (get (merged_data w options) "page") then
        if negb (ToBoolean (hasMore w)) then (w1, Normal Returned_false)
        else
          let page :=
            match currentPage (state (this w)) with
            | None => Int 2
            | Some cp => if number_leb cp (Int 1) then Int 2 else number_add cp (Int 1)
            end in
          (set_heap (assign (heap w1) l "page" (VNum page)) w1,
           Normal (Returned_call (this_fetch o)))
      else (w1, Normal (Returned_call (this_fetch o))).
Proof.
  intros l h o w1.
  assert (match options_data Ctx Resp (default no_options options) with
          | Some l => (l, heap w) | None => alloc (heap w) ∅ end = (l, h)) as Hlh
    by (subst l h; unfold more_data; by destruct (match _ with Some _ => _ | None => _ end)).
  pose proof (more_merges options w l h Hlh) as Hm.
  assert (deref h (data (state (this w))) = state_data w) as Hsd.
  { unfold state_data. destruct (options_data Ctx Resp (default no_options options)).
    - by injection Hlh as _ <-.
    - assert (h = (alloc (heap w) ∅).2) as -> by (by rewrite Hlh).
      apply deref_alloc_empty. }
  rewrite Hsd in Hm. split; [exact Hm|]. split.
  - intros l' Hne [x Hx]. subst w1. cbn [heap set_heap]. unfold extend.
    rewrite lookup_insert_ne by done.
    destruct (options_data Ctx Resp (default no_options options)).
    + by injection Hlh as _ <-.
    + assert (h = (alloc (heap w) ∅).2) as -> by (by rewrite Hlh).
      assert ((alloc (heap w) ∅).1 = l) as Hl by (by rewrite Hlh).
      unfold alloc in *. cbn [fst snd] in *. rewrite lookup_insert_ne; [done|]. congruence.
  - unfold more. rewrite Hlh, Hsd. cbn [heap set_heap]. fold w1. rewrite Hm. reflexivity.
Qed.

(** [more], up to its call of [fetch]: nothing is thrown, the collection
    itself is not touched, and no object is changed but the data object
    of the options. *)
Lemma more_frame (options : option (Options Ctx Resp)) (w : World) :
  let w' := (more (Target := Target) options w).1 in
  (∃ r, (more (Target := Target) options w).2 = Normal r)
  ∧ this w' = this w
  ∧ ∀ l, is_Some (heap w !! l) → options ≫= options_data Ctx Resp ≠ Some l →
      heap w' !! l = heap w !! l.
Proof.
  intros w'. subst w'. destruct (more_outcome options w) as (_ & Hrest & ->).
  cbn zeta in *.
  assert (∀ l, is_Some (heap w !! l) → options ≫= options_data Ctx Resp ≠ Some l →
               l ≠ (more_data options w).1) as Hne.
  { intros l [x Hx] Hgiven Heq. unfold more_data in Heq.
    pose proof (alloc_fresh (heap w) ∅) as Hf.
    destruct options as [o|]; cbn -[alloc] in *.
    - destruct (options_data Ctx Resp o); cbn -[alloc] in Heq; congruence.
    - congruence. }
  destruct (isUndefined _); [destruct (negb _)|]; cbn [fst snd]; fields.
  all: split; [eauto|]; split; [done|]; intros l Hl Hgiven.
  2: unfold assign; rewrite lookup_insert_ne by (symmetry; by apply Hne).
  all: apply Hrest; [by apply Hne | done].
Qed.

(** The page [more] computes. On data without a page key and with
    [hasMore()] true the page asked for is at least 2 and above the
    current page. It is within the number of pages except in one case:
    from a current page below 1 with a single page in all, [more] asks
    for page 2. *)
Theorem more_page_bounds (options : option (Options Ctx Resp)) (w : World) :
  merged_data w options !! "page" = None →
  hasMore w = VBool true →
  ∃ c t p,
    currentPage (state (this w)) = Some (Int c)
    ∧ totalPages (state (this w)) = Some (Int t)
    ∧ requests_page (Target := Target) options w (Int p)
    ∧ 2 ≤ p
    ∧ c < p
    ∧ (p ≤ t ↔ 1 ≤ c ∨ 2 ≤ t).
Proof.
  intros Hpage Hyes. destruct (more_outcome options w) as (Hm & _ & Hmore).
  cbn zeta in *. rewrite (get_None _ _ Hpage), Hyes in Hmore. cbn [ToBoolean negb] in Hmore.
  unfold hasMore in Hyes.
  destruct (totalPages (state (this w))) as [tp|]; [|done].
  destruct (totalObjects (state (this w))) as [tobj|]; [|done].
  destruct (currentPage (state (this w))) as [cp|]; [|done].
  injection Hyes as Hlt. apply number_ltb_Int in Hlt as (c & t & -> & -> & Hlt).
  exists c, t, (if c <=? 1 then 2 else c + 1). do 2 (split; [done|]).
  split.
  { eexists _, _. split; [exact Hmore|]. eexists. split; [cbn; reflexivity|].
    rewrite deref_assign_eq, lookup_insert_eq. cbn. by destruct (c <=? 1). }
  destruct (Z.leb_spec c 1); lia.
Qed.

(** [more] on options whose data is the stored object itself, as the
    options are that a read without data has been through: the page asked
    for is written into the stored query parameters. *)
Theorem more_writes_page_into_stored (options : Options Ctx Resp) (w : World) :
  options_data Ctx Resp options = Some (data (state (this w))) →
  state_data w !! "page" = None →
  hasMore w = VBool true →
  ∃ p, requests_page (Target := Target) (Some options) w (Int p)
       ∧ state_data (more (Target := Target) (Some options) w).1 !! "page"
         = Some (VNum (Int p)).
Proof.
  intros Hd Hpage Hyes.
  assert (merged_data w (Some options) = state_data w) as Hmerged.
  { unfold merged_data, caller_data. cbn. rewrite Hd. apply (idemp (∪)). }
  assert (merged_data w (Some options) !! "page" = None) as Hnone by (by rewrite Hmerged).
  destruct (more_outcome (Some options) w) as (Hm & _ & Hmore).
  cbn zeta in *. rewrite (get_None _ _ Hnone), Hyes in Hmore. cbn [ToBoolean negb] in Hmore.
  assert ((more_data (Some options) w).1 = data (state (this w))) as Hl
    by (unfold more_data; cbn; by rewrite Hd).
  unfold hasMore in Hyes.
  destruct (totalPages (state (this w))) as [tp|]; [|done].
  destruct (totalObjects (state (this w))) as [tobj|]; [|done].
  destruct (currentPage (state (this w))) as [cp|]; [|done].
  injection Hyes as Hlt. apply number_ltb_Int in Hlt as (c & t & -> & -> & Hlt).
  exists (if c <=? 1 then 2 else c + 1). split.
  - eexists _, _. split; [exact Hmore|]. eexists. split; [cbn; reflexivity|].
    rewrite deref_assign_eq, lookup_insert_eq. cbn. by destruct (c <=? 1).
  - rewrite Hmore. cbn [fst]. unfold state_data. fields. rewrite <- Hl.
    rewrite deref_assign_eq, lookup_insert_eq. cbn. by destruct (c <=? 1).
Qed.

(** *** [initialize] *)

Lemma initSortOnChange_parent (w : World) :
  parent (this (_initSortOnChange StringToNumber inherited_text Array_sort w).1) = parent (this w).
Proof.
  unfold _initSortOnChange.
  destruct (_initializedSortOnChange (this w)
            || negb (ToBoolean (get (state_data w) "orderby"))); [done|].
  unfold mbind, M_bind, bind, sort.
  destruct (comparator (this w)) as [k|] eqn:Hk; cbn; rewrite ?Hk.
  all: match goal with
       | |- context [Array_sort ?f ?l] => destruct (Array_sort f l) as [ms [[]|e]]
       end; done.
Qed.

(** The activation that ends [initialize] leaves the heap, the state and
    [parent] alone, whether or not its sort throws. *)
Lemma initialize_sorts (w : World) :
  let w' := ((_initSortOnChange StringToNumber inherited_text Array_sort ;;
              (ret tt : M unit)) w).1 in
  heap w' = heap w ∧ state (this w') = state (this w) ∧ parent (this w') = parent (this w).
Proof.
  destruct (initSortOnChange_frame w) as [Hh Hs]. pose proof (initSortOnChange_parent w) as Hp.
  unfold mbind, M_bind, bind.
  by destruct (_initSortOnChange StringToNumber inherited_text Array_sort w) as [w1 [b|e]].
Qed.

(** What construction leaves. Whatever the options, and whether or not
    the first sort throws, the three counters are unset and the stored
    query parameters are a new object; no data object that existed is
    changed. Without options [parent] is the empty string and the stored
    parameters are empty; with options [parent] is theirs and the stored
    parameters hold a copy of what their data held. With [null] for
    options, reading [parent] from it throws: the stored parameters are
    empty by then, and nothing else of the collection has changed. *)
Theorem initialize_state (models : list Model) (options : InitArgument) (w : World) :
  let w' := (initialize StringToNumber inherited_text Array_sort models options w).1 in
  currentPage (state (this w')) = None
  ∧ totalPages (state (this w')) = None
  ∧ totalObjects (state (this w')) = None
  ∧ heap w !! data (state (this w')) = None
  ∧ (∀ l, is_Some (heap w !! l) → heap w' !! l = heap w !! l)
  ∧ match options with
    | init_undefined => parent (this w') = VStr "" ∧ state_data w' = ∅
    | init_options o =>
        parent (this w') = init_parent o
        ∧ state_data w' = match init_data o with
                          | Some src => deref (heap w) src
                          | None => ∅
                          end
    | init_null =>
        (initialize StringToNumber inherited_text Array_sort models options w).2
        = Abrupt (TypeError "Cannot read properties of null (reading 'parent')")
        ∧ state_data w' = ∅
        ∧ this w' = set_state (state (this w')) (this w)
    end.
Proof.
  intros w'. subst w'. unfold initialize.
  pose proof (alloc_fresh (heap w) ∅) as Hf.
  pose proof (deref_alloc_eq (heap w) ∅) as Heq.
  pose proof (deref_alloc_empty (heap w)) as Hsame.
  assert (∀ l, is_Some (heap w !! l) → (alloc (heap w) ∅).2 !! l = heap w !! l) as Hold.
  { intros l [x Hx]. unfold alloc in *. cbn [fst snd] in *.
    rewrite lookup_insert_ne; [done|]. congruence. }
  destruct (alloc (heap w) ∅) as [l h]. cbn [fst snd] in *.
  destruct options as [| |[p [src|]]]; cbn [init_data init_parent].
  2: { unfold state_data. fields. by repeat split. }
  all: match goal with
       | |- context [(_ ;; _) ?w0] =>
           destruct (initialize_sorts w0) as (Hh & Hs & Hp); cbn zeta in Hh, Hs, Hp;
           unfold state_data; rewrite Hh, Hs, Hp
       end;
    cbn [set_parent parent state set_state set_this set_heap this heap data
         currentPage totalPages totalObjects];
    do 4 (split; [done|]).
  - by split.
  - split; [|split; [done|]].
    + intros l' Hl'. unfold extend. rewrite lookup_insert_ne; [by apply Hold|].
      intros ->. destruct Hl'. congruence.
    + by rewrite deref_extend_eq, Heq, Hsame, (right_id_L ∅ (∪)).
  - by split.
Qed.

(** *** [_initSortOnChange], when the sort throws *)

(** An activation that throws has thrown in the sort. By then the
    comparator is installed and the listener registered, and the flag is
    not set: the next call will activate again, and register again. *)
Theorem initSortOnChange_throw_keeps_listener (w : World) (e : error) :
  (_initSortOnChange StringToNumber inherited_text Array_sort w).2 = Abrupt e →
  let w' := (_initSortOnChange StringToNumber inherited_text Array_sort w).1 in
  let k := default DefaultComparator (comparator (this w)) in
  (Array_sort (comparator_function StringToNumber inherited_text w k) (models (this w))).2 = Abrupt e
  ∧ _initializedSortOnChange (this w') = false
  ∧ comparator (this w') = Some k
  ∧ _events (this w') = (_events (this w) ++ [("sync change", SortHandler)])%list
  ∧ models (this w')
    = (Array_sort (comparator_function StringToNumber inherited_text w k) (models (this w))).1.
Proof.
  unfold _initSortOnChange.
  destruct (_initializedSortOnChange (this w)) eqn:Hi; [done|].
  destruct (negb (ToBoolean (get (state_data w) "orderby"))); [done|]. cbn [orb].
  unfold mbind, M_bind, bind, sort.
  destruct (comparator (this w)) as [k|] eqn:Hk; cbn; rewrite ?Hk.
  - replace (comparator_function StringToNumber inherited_text _ k)
      with (comparator_function StringToNumber inherited_text w k) by (by destruct k).
    destruct (Array_sort (comparator_function StringToNumber inherited_text w k) (models (this w)))
      as [ms [[]|e']]; [done|]. intros [= ->]. cbn. by rewrite Hi, Hk.
  - replace (defaultComparator StringToNumber inherited_text _)
      with (defaultComparator StringToNumber inherited_text w) by done.
    destruct (Array_sort (defaultComparator StringToNumber inherited_text w) (models (this w)))
      as [ms [[]|e']]; [done|]. intros [= ->]. cbn. by rewrite Hi.
Qed.

(** *** [defaultComparator] as a comparison function *)

Lemma string_compare_lt_trans (s t u : string) :
  String.compare s t = Lt → String.compare t u = Lt → String.compare s u = Lt.
Proof.
  revert t u. induction s as [|a s IH]; intros [|b t] [|c u]; cbn; try done.
  unfold Ascii.compare.
  destruct (N.compare_spec (N_of_ascii a) (N_of_ascii b)) as [Hab|Hab|Hab];
    destruct (N.compare_spec (N_of_ascii b) (N_of_ascii c)) as [Hbc|Hbc|Hbc];
    try done.
  - rewrite Hab, Hbc, N.compare_refl. apply IH.
  - intros _ _. rewrite Hab. by rewrite (proj2 (N.compare_lt_iff _ _) Hbc).
  - intros _ _. rewrite <- Hbc. by rewrite (proj2 (N.compare_lt_iff _ _) Hab).
  - intros _ _.
    assert (N_of_ascii a < N_of_ascii c)%N as Hac by lia.
    by rewrite (proj2 (N.compare_lt_iff _ _) Hac).
Qed.

Lemma natural_order_opp (x y : value) (c : comparison) :
  natural_order x y = Some c → natural_order y x = Some (CompOpp c).
Proof.
  destruct x as [| |p|[|i]|s], y as [| |q|[|j]|t]; try done; cbn; intros [= <-].
  - by destruct p, q.
  - by rewrite Z.compare_antisym.
  - by rewrite String.compare_antisym.
Qed.

(** The natural ordering is one of a kind: of three values of which the
    first two and the last two are ordered, the outer two are, and the
    order is transitive. *)
Lemma natural_order_trans (x y z : value) (c1 c2 : comparison) :
  natural_order x y = Some c1 → natural_order y z = Some c2 →
  ∃ c3, natural_order x z = Some c3
        ∧ (c1 ≠ Gt → c2 ≠ Gt → c3 ≠ Gt)
        ∧ (c1 ≠ Lt → c2 ≠ Lt → c3 ≠ Lt).
Proof.
  destruct x as [| |p|[|i]|s], y as [| |q|[|j]|t], z as [| |r|[|k]|u];
    try done; cbn; intros [= <-] [= <-]; eexists; (split; [reflexivity|]).
  - by destruct p, q, r.
  - destruct (Z.compare_spec i j), (Z.compare_spec j k), (Z.compare_spec i k);
      split; intros; try done; lia.
  - assert (∀ a b c, String.compare a b ≠ Gt → String.compare b c ≠ Gt →
                     String.compare a c ≠ Gt) as Hle.
    { intros a b c Hab Hbc.
      destruct (String.compare a b) eqn:H1; [| |done].
      - apply String.compare_eq_iff in H1 as ->. exact Hbc.
      - destruct (String.compare b c) eqn:H2; [| |done].
        + apply String.compare_eq_iff in H2 as <-. by rewrite H1.
        + by rewrite (string_compare_lt_trans _ _ _ H1 H2). }
    split; [apply Hle|].
    intros Hst Htu Hsu. apply (Hle u t s).
    + rewrite String.compare_antisym. by destruct (String.compare t u).
    + rewrite String.compare_antisym. by destruct (String.compare s t).
    + rewrite String.compare_antisym, Hsu. done.
Qed.

(** When the comparator returns and when it throws. It returns, and then
    one of -1, 0 and 1, exactly when [orderby] is set to a value that is
    not empty and what [get] reads from each record, an attribute of its
    own or else a property that every object inherits, is neither
    [undefined] nor [null]; in every other case it throws. *)
Theorem defaultComparator_returns_iff (w : World) (a b : Model) :
  let orderby := get (state_data w) "orderby" in
  ((∃ r, defaultComparator StringToNumber inherited_text w a b = Normal (Int r) ∧ -1 ≤ r ≤ 1)
   ↔ ToBoolean orderby = true
     ∧ has_value (Model_get a orderby) = true
     ∧ has_value (Model_get b orderby) = true)
  ∧ ((∃ e, defaultComparator StringToNumber inherited_text w a b = Abrupt e)
     ↔ ¬ (ToBoolean orderby = true
          ∧ has_value (Model_get a orderby) = true
          ∧ has_value (Model_get b orderby) = true)).
Proof.
  intros orderby. unfold defaultComparator. fold orderby.
  assert (∀ (c : completion number) (P : Prop),
            (∀ r, c ≠ Normal r) → ¬ P →
            ((∃ r, c = Normal (Int r) ∧ -1 ≤ r ≤ 1) ↔ P)
            ∧ ((∃ e, c = Abrupt e) ↔ ¬ P)) as Hthrows.
  { intros [r|e] P Hc HP; [by destruct (Hc r)|].
    split; split; [by intros (? & ? & _) | done | done | by eauto]. }
  destruct (ToBoolean orderby); cbn [negb];
    [|apply Hthrows; [done | by intros [? _]]].
  destruct (Model_get a orderby) as [[| |p|n|s]|j], (Model_get b orderby) as [[| |q|m|t]|k];
    cbn [Attribute_isUndefined isUndefined orb Attribute_valueOf valueOf has_value];
    try (apply Hthrows; [done | by intros (_ & ? & ?)]).
  all: match goal with
       | |- context [Normal ?r] =>
           assert (∃ z, r = Int z ∧ -1 ≤ z ≤ 1) as (z & -> & Hz)
             by (repeat case_match; eexists; (split; [reflexivity|lia]))
       end.
  all: split; split;
    [done | by eauto | by intros [? ?] | by intros H; destruct H].
Qed.

(** The comparator on two attribute values with a natural ordering: the
    sign of the ordering, turned around for a descending order. *)
Lemma defaultComparator_natural (w : World) (a b : Model) (ob va vb : value)
    (c : comparison) :
  state_data w !! "orderby" = Some ob → ToBoolean ob = true →
  attributes a !! ToString ob = Some va → attributes b !! ToString ob = Some vb →
  natural_order va vb = Some c →
  defaultComparator StringToNumber inherited_text w a b
  = Normal (Int (sign_of c * (if bool_decide (state_data w !! "order" = Some (VStr "desc"))
                              then -1 else 1))).
Proof.
  intros Hob Ht Ha Hb Hc.
  rewrite (defaultComparator_returns w a b ob va vb Hob Ht Ha Hb);
    try (intros ->; by destruct vb); try (intros ->; by destruct va as [| |?|[|?]|?]).
  rewrite (natural_order_strict_eqb _ _ _ Hc), (natural_order_lt _ _ _ Hc).
  by destruct c, (bool_decide _).
Qed.

(** Swapping the two records negates the comparator's result, whenever
    the two attribute values have a natural ordering. *)
Theorem defaultComparator_antisymmetric (w : World) (a b : Model) (ob va vb : value)
    (c : comparison) :
  state_data w !! "orderby" = Some ob → ToBoolean ob = true →
  attributes a !! ToString ob = Some va → attributes b !! ToString ob = Some vb →
  natural_order va vb = Some c →
  ∃ r, defaultComparator StringToNumber inherited_text w a b = Normal (Int r)
       ∧ defaultComparator StringToNumber inherited_text w b a = Normal (Int (- r)).
Proof.
  intros Hob Ht Ha Hb Hc.
  rewrite (defaultComparator_natural w a b ob va vb c Hob Ht Ha Hb Hc).
  rewrite (defaultComparator_natural w b a ob vb va _ Hob Ht Hb Ha (natural_order_opp _ _ _ Hc)).
  eexists; split; [reflexivity|].
  by destruct c, (bool_decide _).
Qed.

(** The comparator is transitive on records whose attribute values are
    ordered: when it does not place [a] after [b] nor [b] after [c], it
    does not place [a] after [c]; likewise for "before". *)
Theorem defaultComparator_transitive (w : World) (a b c : Model) (ob va vb vc : value)
    (c1 c2 : comparison) :
  state_data w !! "orderby" = Some ob → ToBoolean ob = true →
  attributes a !! ToString ob = Some va → attributes b !! ToString ob = Some vb →
  attributes c !! ToString ob = Some vc →
  natural_order va vb = Some c1 → natural_order vb vc = Some c2 →
  ∃ r1 r2 r3,
    defaultComparator StringToNumber inherited_text w a b = Normal (Int r1)
    ∧ defaultComparator StringToNumber inherited_text w b c = Normal (Int r2)
    ∧ defaultComparator StringToNumber inherited_text w a c = Normal (Int r3)
    ∧ (r1 ≤ 0 → r2 ≤ 0 → r3 ≤ 0)
    ∧ (0 ≤ r1 → 0 ≤ r2 → 0 ≤ r3).
Proof.
  intros Hob Ht Ha Hb Hc H1 H2.
  destruct (natural_order_trans _ _ _ _ _ H1 H2) as (c3 & H3 & Hle & Hge).
  rewrite (defaultComparator_natural w a b ob va vb c1 Hob Ht Ha Hb H1).
  rewrite (defaultComparator_natural w b c ob vb vc c2 Hob Ht Hb Hc H2).
  rewrite (defaultComparator_natural w a c ob va vc c3 Hob Ht Ha Hc H3).
  do 3 eexists; do 3 (split; [reflexivity|]).
  destruct (bool_decide _), c1, c2, c3; cbn; split; intros; try lia;
    try (by destruct Hle); try (by destruct Hge).
Qed.

(** A record whose attribute is [NaN] is placed after every other record
    whichever side of the comparison it is on: against a record with an
    attribute that is neither [undefined] nor [null] the comparator
    returns 1 both ways, and -1 both ways exactly when the stored [order]
    is ["desc"]. There the comparator is not antisymmetric. *)
Theorem defaultComparator_NaN_both_ways (w : World) (a b : Model) (ob vb : value) :
  state_data w !! "orderby" = Some ob → ToBoolean ob = true →
  attributes a !! ToString ob = Some (VNum NaN) →
  attributes b !! ToString ob = Some vb → vb ≠ VUndefined → vb ≠ VNull →
  let r := if bool_decide (state_data w !! "order" = Some (VStr "desc")) then -1 else 1 in
  defaultComparator StringToNumber inherited_text w a b = Normal (Int r)
  ∧ defaultComparator StringToNumber inherited_text w b a = Normal (Int r).
Proof.
  intros Hob Ht Ha Hb Hu Hn r. subst r.
  rewrite (defaultComparator_returns w a b ob _ vb Hob Ht Ha Hb) by done.
  rewrite (defaultComparator_returns w b a ob vb _ Hob Ht Hb Ha) by done.
  assert (strict_eqb (VNum NaN) vb = false) as -> by (by destruct vb).
  assert (strict_eqb vb (VNum NaN) = false) as -> by (by destruct vb as [| |?|[|?]|?]).
  assert (JS.lt StringToNumber (VNum NaN) vb = false) as -> by (by destruct vb).
  assert (JS.lt StringToNumber vb (VNum NaN) = false) as ->.
  { destruct vb as [| |?|[|?]|?]; cbn; try done; unfold number_ltb; by repeat case_match. }
  by destruct (bool_decide _).
Qed.

(** A descending order reverses every verdict of the comparator and
    changes nothing else: with [order] set to ["desc"] it returns the
    negation of what it returns with any other [order], and throws what
    it throws then. *)
Theorem defaultComparator_desc_reverses (w w' : World) (a b : Model) :
  state_data w !! "order" ≠ Some (VStr "desc") →
  state_data w' = <["order" := VStr "desc"]> (state_data w) →
  defaultComparator StringToNumber inherited_text w' a b
  = match defaultComparator StringToNumber inherited_text w a b with
    | Normal r => Normal (number_mul r (Int (-1)))
    | Abrupt e => Abrupt e
    end.
Proof.
  intros Hasc Hw'. unfold defaultComparator. rewrite !strict_eqb_desc, Hw'.
  assert (get (<["order" := VStr "desc"]> (state_data w)) "orderby"
          = get (state_data w) "orderby") as ->.
  { unfold get. by rewrite lookup_insert_ne. }
  rewrite lookup_insert_eq, bool_decide_eq_true_2 by done.
  rewrite (bool_decide_eq_false_2 _ Hasc).
  repeat case_match; done.
Qed.

(** *** Sorting, once a read has returned *)

(** [_initSortOnChange] answers [false] only when it has done nothing. *)
Lemma initSortOnChange_false (w w' : World) :
  _initSortOnChange StringToNumber inherited_text Array_sort w = (w', Normal false) →
  w' = w
  ∧ (_initializedSortOnChange (this w) = true
     ∨ ToBoolean (get (state_data w) "orderby") = false).
Proof.
  unfold _initSortOnChange.
  destruct (_initializedSortOnChange (this w)); cbn [orb]; [intros [= <-]; by eauto|].
  destruct (ToBoolean (get (state_data w) "orderby")); cbn [negb];
    [|intros [= <-]; by eauto].
  unfold mbind, M_bind, bind, sort.
  destruct (comparator (this w)) as [k|] eqn:Hk; cbn; rewrite ?Hk.
  all: match goal with
       | |- context [Array_sort ?f ?l] => destruct (Array_sort f l) as [ms [[]|e]]
       end; done.
Qed.

(** [_initSortOnChange] throws only past the test of the flag and of
    [orderby], and before the flag is set. *)
Lemma initSortOnChange_throw_flag (w : World) (e : error) :
  (_initSortOnChange StringToNumber inherited_text Array_sort w).2 = Abrupt e →
  _initializedSortOnChange (this (_initSortOnChange StringToNumber inherited_text Array_sort w).1) = false
  ∧ ToBoolean (get (state_data w) "orderby") = true.
Proof.
  unfold _initSortOnChange.
  destruct (_initializedSortOnChange (this w)) eqn:Hi; [done|].
  destruct (ToBoolean (get (state_data w) "orderby")); [|done]. cbn [orb negb].
  unfold mbind, M_bind, bind, sort.
  destruct (comparator (this w)) as [k|] eqn:Hk; cbn; rewrite ?Hk.
  all: match goal with
       | |- context [Array_sort ?f ?l] => destruct (Array_sort f l) as [ms [[]|e']]
       end; done.
Qed.

(** The sorting, by the time a read is handed to [Backbone.sync]. When
    [sync( 'read', ... )] gets as far as its call of [Backbone.sync],
    sort-on-change is activated or the stored query parameters have no
    [orderby] to sort by, and a further [_initSortOnChange] does nothing.
    When it throws before that call, [orderby] is set and the flag is
    not: of this file's code only the sort can have thrown. *)
Theorem sync_read_settles_sorting (model : Target) (options : option (Options Ctx Resp))
    (w : World) :
  let w' := (sync StringToNumber inherited_text Array_sort nonce "read" model options w).1 in
  match (sync StringToNumber inherited_text Array_sort nonce "read" model options w).2 with
  | Normal call =>
      (∃ o, call = Backbone_sync "read" model o)
      ∧ (_initializedSortOnChange (this w') = true
         ∨ ToBoolean (get (state_data w') "orderby") = false)
      ∧ _initSortOnChange StringToNumber inherited_text Array_sort w' = (w', Normal false)
  | Abrupt _ =>
      _initializedSortOnChange (this w') = false
      ∧ ToBoolean (get (state_data w') "orderby") = true
  end.
Proof.
  intros w'. subst w'. rewrite sync_read_outcome. cbn zeta. cbn [fst snd].
  set (w0 := (sync_read_state StringToNumber
                (sync_nonce nonce (default no_options options)) w).1).
  destruct (initSortOnChange_frame w0) as [Hh Hs].
  destruct (_initSortOnChange StringToNumber inherited_text Array_sort w0)
    as [w1 [[]|e]] eqn:Hrun; cbn [fst snd] in *.
  - apply initSortOnChange_true_marks in Hrun.
    split; [by eexists|]. split; [by left|]. apply initSortOnChange_skips. by left.
  - apply initSortOnChange_false in Hrun as [-> Hskip].
    split; [by eexists|]. split; [exact Hskip|]. by apply initSortOnChange_skips.
  - assert (state_data w1 = state_data w0) as Hsd
      by (unfold state_data; by rewrite Hh, Hs).
    rewrite Hsd.
    destruct (initSortOnChange_throw_flag w0 e) as [Hf Ho]; [by rewrite Hrun|].
    rewrite Hrun in Hf. cbn [fst] in Hf. done.
Qed.

(** *** The answer to a read *)

(** The success callback of a read, around a callback that keeps the
    bookkeeping. *)
Lemma sync_success_frame (success : option (Callback Ctx Resp))
  (ctx : Ctx) (arguments : Args Resp) (w : World) :
  keeps_bookkeeping (invoke success) →
  let w' := (sync_success success ctx arguments w).1 in
  heap w' = heap w
  ∧ data (state (this w')) = data (state (this w))
  ∧ totalPages (state (this w'))
    = Some (parseInt10 (getResponseHeader (request Resp arguments) "x-wp-totalpages"))
  ∧ totalObjects (state (this w'))
    = Some (parseInt10 (getResponseHeader (request Resp arguments) "x-wp-total"))
  ∧ currentPage (state (this w'))
    = Some (match currentPage (state (this w)) with
            | None => Int 1
            | Some cp => number_add cp (Int 1)
            end)
  ∧ _initializedSortOnChange (this w') = _initializedSortOnChange (this w).
Proof.
  intros Hk w'. subst w'. unfold sync_success. cbn zeta.
  match goal with
  | |- context [match success with Some f => f ctx arguments ?w1 | None => _ end] =>
      change (match success with Some f => f ctx arguments w1 | None => (w1, Normal VUndefined) end)
        with (invoke success ctx arguments w1);
      destruct (Hk ctx arguments w1) as (-> & -> & ->)
  end.
  fields. destruct (currentPage (state (this w))); fields; done.
Qed.

(** Once a read is answered [hasMore] is never [null] again. When the
    answer lacks a readable number of pages, [hasMore] is [false] and
    [more], on data without a page, sends nothing. *)
Theorem answer_settles_hasMore (success : option (Callback Ctx Resp))
    (ctx : Ctx) (arguments : Args Resp) (w : World) :
  keeps_bookkeeping (invoke success) →
  let w' := (sync_success success ctx arguments w).1 in
  hasMore w' ≠ VNull
  ∧ (unreadable (getResponseHeader (request Resp arguments) "x-wp-totalpages") = true →
     hasMore w' = VBool false
     ∧ ∀ options : option (Options Ctx Resp),
         merged_data w' options !! "page" = None →
         (more (Target := Target) options w').2 = Normal Returned_false).
Proof.
  intros Hk w'. destruct (sync_success_frame success ctx arguments w Hk)
    as (_ & _ & Htp & Hto & Hcp & _). fold w' in Htp, Hto, Hcp.
  split; [unfold hasMore; by rewrite Htp, Hto, Hcp|].
  intros Hbad%parseInt10_NaN.
  assert (hasMore w' = VBool false) as Hno.
  { unfold hasMore. rewrite Htp, Hto, Hcp, Hbad. cbn. unfold number_ltb. by repeat case_match. }
  split; [exact Hno|]. intros options Hpage.
  destruct (more_outcome options w') as (_ & _ & ->). cbn zeta.
  by rewrite (get_None _ _ Hpage), Hno.
Qed.

Lemma digits_prefix_app (d : uint) (rest : string) :
  starts_with_digit rest = false →
  digits_prefix (NilEmpty.string_of_uint d ++ rest) = d.
Proof.
  intros Hrest%digits_prefix_Nil.
  induction d; cbv [String.append NilEmpty.string_of_uint];
    fold NilEmpty.string_of_uint; fold String.append; cbn [digits_prefix]; congruence.
Qed.

(** A header that starts with a count in base 10 is read as that count,
    whatever follows the digits. *)
Lemma parseInt10_prefix (n : N) (rest : string) :
  starts_with_digit rest = false →
  parseInt10 (Some (base10 n ++ rest)) = Int (Z.of_N n).
Proof.
  intros Hrest. unfold parseInt10, parseInt10_string, base10.
  pose proof (to_uint_nonnil n) as Hn. pose proof (DecimalN.Unsigned.of_to n) as Hof.
  pose proof (digits_prefix_app (N.to_uint n) rest Hrest) as Hd.
  destruct (N.to_uint n) as [|d|d|d|d|d|d|d|d|d|d]; [done|..];
    cbv [String.append NilEmpty.string_of_uint] in Hd |- *;
    fold NilEmpty.string_of_uint in Hd |- *; fold String.append in Hd |- *;
    match goal with
    | |- context [trim_start (String ?c ?s)] =>
        change (trim_start (String c s)) with (String c s);
        change (strip_sign (String c s)) with (1, String c s)
    end;
    cbv beta iota; rewrite Hd, Hof; f_equal; lia.
Qed.

(** The totals are read leniently. From a header that starts with a
    count in base 10 the success callback of a read stores that count,
    whatever follows the digits; [hasMore] then compares the current page
    with it. *)
Theorem sync_success_reads_count_prefix (success : option (Callback Ctx Resp))
    (ctx : Ctx) (arguments : Args Resp) (w : World) (pages objects : N)
    (rest rest' : string) :
  keeps_bookkeeping (invoke success) →
  starts_with_digit rest = false → starts_with_digit rest' = false →
  getResponseHeader (request Resp arguments) "x-wp-totalpages" = Some (base10 pages ++ rest) →
  getResponseHeader (request Resp arguments) "x-wp-total" = Some (base10 objects ++ rest') →
  let w' := (sync_success success ctx arguments w).1 in
  totalPages (state (this w')) = Some (Int (Z.of_N pages))
  ∧ totalObjects (state (this w')) = Some (Int (Z.of_N objects))
  ∧ ∀ c, currentPage (state (this w')) = Some (Int c) →
         hasMore w' = VBool (c <? Z.of_N pages).
Proof.
  intros Hk Hrest Hrest' Hp Ho w'.
  destruct (sync_success_frame success ctx arguments w Hk) as (_ & _ & Htp & Hto & _).
  fold w' in Htp, Hto.
  rewrite Hp, parseInt10_prefix in Htp by done.
  rewrite Ho, parseInt10_prefix in Hto by done.
  do 2 (split; [done|]). intros c Hc. unfold hasMore. by rewrite Htp, Hto, Hc.
Qed.

(** *** Requests and answers, one after the other *)

Section Paging.

Variable self : Target.
Variable fetch_success : option (Callback Ctx Resp) → Callback Ctx Resp.

(** A call of [more] that goes out. With no page among the merged data
    and a current page below the number of pages, [more] ends in a read
    that asks for the next page; the stored query parameters are the
    merged data from then on, and the current page is the one before the
    page asked for. *)
Lemma more_fetch_next (options : option (Options Ctx Resp)) (w : World) (c T : Z)
    (tobj : number) :
  merged_data w options !! "page" = None →
  _initializedSortOnChange (this w) = true
  ∨ ToBoolean (get (merged_data w options) "orderby") = false →
  currentPage (state (this w)) = Some (Int c) →
  totalPages (state (this w)) = Some (Int T) →
  totalObjects (state (this w)) = Some tobj →
  c < T →
  let p := if c <=? 1 then 2 else c + 1 in
  let l := (more_data options w).1 in
  ∃ w1 o,
    more_fetch StringToNumber inherited_text Array_sort nonce self fetch_success options w
    = (w1, Normal (Some (Backbone_sync "read" self o)))
    ∧ options_data Ctx Resp o = Some l
    ∧ options_success Ctx Resp o
      = Some (sync_success (Some (fetch_success (options ≫= options_success Ctx Resp))))
    ∧ deref (heap w1) l = <["page" := VNum (Int p)]> (merged_data w options)
    ∧ state_data w1 = merged_data w options
    ∧ currentPage (state (this w1)) = Some (Int (p - 1))
    ∧ totalPages (state (this w1)) = Some (Int T)
    ∧ totalObjects (state (this w1)) = Some tobj
    ∧ _initializedSortOnChange (this w1) = _initializedSortOnChange (this w).
Proof.
  intros Hpage Hsort Hc HT Ho Hlt p l.
  destruct (more_outcome options w) as (Hm & _ & Hmore). cbn zeta in *. fold l in Hm, Hmore.
  assert (hasMore w = VBool true) as Hyes.
  { unfold hasMore. rewrite Hc, HT, Ho. cbn. f_equal. by apply Z.ltb_lt. }
  rewrite (get_None _ _ Hpage), Hyes, Hc in Hmore. cbn [ToBoolean negb number_leb number_add] in Hmore.
  assert ((if c <=? 1 then Int 2 else Int (c + 1)) = Int p) as Hp
    by (subst p; by destruct (c <=? 1)).
  rewrite Hp in Hmore.
  set (h1 := extend (more_data options w).2 l (state_data w)) in *.
  set (w2 := set_heap (assign (heap (set_heap h1 w)) l "page" (VNum (Int p))) (set_heap h1 w)) in *.
  set (o0 := set_options_data (Some l) (default no_options options)) in *.
  assert (deref (heap w2) l = <["page" := VNum (Int p)]> (merged_data w options)) as Hsent.
  { subst w2. cbn [heap set_heap] in *. by rewrite deref_assign_eq, Hm. }
  assert (is_Some (heap w2 !! l)) as Hlive.
  { subst w2. cbn [heap set_heap]. unfold assign. rewrite lookup_insert_eq. eauto. }
  unfold more_fetch. rewrite Hmore. unfold fetch. cbn [default].
  rewrite sync_read_outcome. cbn zeta. cbn [default].
  match goal with
  | |- context [sync_read_state _ ?o _] => set (o1 := o)
  end.
  assert (options_data Ctx Resp o1 = Some l) as Hd1
    by (subst o1 o0; unfold sync_nonce; by destruct nonce).
  destruct (sync_read_state_page o1 w2 l (VNum (Int p)) Hd1) as (Hcp & Htp & Hto & Hsd);
    [by rewrite Hsent, lookup_insert_eq | done |].
  destruct (sync_read_state_collection o1 w2) as (Hflag & _).
  destruct (sync_read_state_options o1 w2) as (_ & _ & Hod).
  destruct (sync_read_state_heap o1 w2) as (_ & Hold).
  cbn zeta in *.
  set (prepared := sync_read_state StringToNumber o1 w2) in *.
  assert (state_data prepared.1 = merged_data w options) as Hstored.
  { rewrite Hsd, Hsent. by apply delete_insert_id. }
  rewrite (initSortOnChange_skips prepared.1).
  2: { destruct Hsort as [Hon|Hnone]; [left; by rewrite Hflag|right].
       by rewrite Hstored. }
  cbn [fst snd]. eexists _, _. split; [reflexivity|].
  cbn [options_data options_success set_options_success].
  split; [by apply Hod|]. split; [subst o0; by destruct options|].
  split; [unfold deref; rewrite (Hold l Hlive); exact Hsent|].
  split; [exact Hstored|].
  split; [rewrite Hcp; cbn; do 2 f_equal; lia|].
  split; [by rewrite Htp|]. split; [by rewrite Hto|]. by rewrite Hflag.
Qed.

(** A call of [more] without options that sends nothing. *)
Lemma more_fetch_stops (w : World) :
  state_data w !! "page" = None →
  hasMore w ≠ VBool true →
  ∃ w1,
    more_fetch StringToNumber inherited_text Array_sort nonce self fetch_success None w = (w1, Normal None)
    ∧ this w1 = this w
    ∧ state_data w1 = state_data w.
Proof.
  intros Hpage Hno.
  assert (merged_data w (None : option (Options Ctx Resp)) = state_data w) as Hmerged
    by (unfold merged_data, caller_data; cbn; apply (right_id ∅ (∪))).
  destruct (more_outcome None w) as (Hm & _ & Hmore). cbn zeta in *.
  rewrite Hmerged in Hm, Hmore. rewrite (get_None _ _ Hpage) in Hmore.
  assert (ToBoolean (hasMore w) = false) as Hfalse.
  { clear -Hno. unfold hasMore in Hno |- *.
    destruct (totalPages (state (this w))), (totalObjects (state (this w))),
      (currentPage (state (this w))); try done.
    cbn. by destruct (number_ltb _ _). }
  rewrite Hfalse in Hmore. cbn [negb] in Hmore.
  unfold more_fetch. rewrite Hmore. eexists. split; [reflexivity|]. split; [done|].
  unfold state_data at 1. fields.
  destruct (decide (data (state (this w)) = (more_data (None : option (Options Ctx Resp)) w).1))
    as [Heq|Hne]; [rewrite Heq; exact Hm|].
  unfold state_data, more_data, alloc, extend, deref in *.
  cbn [fst snd default options_data no_options] in *.
  by rewrite !lookup_insert_ne by done.
Qed.

(** What [more] does of its own. Before it hands over to [fetch] it has
    thrown nothing, left the collection itself as it was and changed no
    object but the data object of its options. When it sends nothing,
    that is the world it returns with; otherwise that is the world in
    which [fetch] starts, and what [more] returns or throws is what
    [fetch] does. *)
Theorem more_changes_only_its_data (options : option (Options Ctx Resp)) (w : World) :
  ∃ w1,
    this w1 = this w
    ∧ (∀ l, is_Some (heap w !! l) → options ≫= options_data Ctx Resp ≠ Some l →
         heap w1 !! l = heap w !! l)
    ∧ (more_fetch StringToNumber inherited_text Array_sort nonce self fetch_success options w
       = (w1, Normal None)
       ∨ ∃ o,
           options_data Ctx Resp o = Some (more_data options w).1
           ∧ options_success Ctx Resp o = options ≫= options_success Ctx Resp
           ∧ (more_fetch StringToNumber inherited_text Array_sort nonce self fetch_success
                options w).1
             = (fetch StringToNumber inherited_text Array_sort nonce self fetch_success
                  (Some o) w1).1
           ∧ (more_fetch StringToNumber inherited_text Array_sort nonce self fetch_success
                options w).2
             = match (fetch StringToNumber inherited_text Array_sort nonce self fetch_success
                        (Some o) w1).2 with
               | Normal c => Normal (Some c)
               | Abrupt e => Abrupt e
               end).
Proof.
  destruct (more_frame options w) as (_ & Hthis & Hframe). cbn zeta in *.
  exists (more (Target := Target) options w).1. split; [exact Hthis|]. split; [exact Hframe|].
  unfold more_fetch. destruct (more_outcome options w) as (_ & _ & ->). cbn zeta.
  assert (options_success Ctx Resp
            (set_options_data (Some (more_data options w).1) (default no_options options))
          = options ≫= options_success Ctx Resp) as Hs by (by destruct options).
  destruct (isUndefined _); [destruct (negb _)|]; cbn [fst snd]; [by left|right..].
  all: exists (set_options_data (Some (more_data options w).1) (default no_options options));
    split; [reflexivity|]; split; [exact Hs|].
  all: match goal with
       | |- context [fetch _ _ _ _ _ _ ?o ?w0] =>
           by destruct (fetch StringToNumber inherited_text Array_sort nonce self
                          fetch_success o w0) as [w2 [c|e]]
       end.
Qed.



(** Merging the stored query parameters into the data of the options
    leaves the stored parameters as they are, also when the two are one
    object. *)
Lemma more_merge_keeps_stored (options : option (Options Ctx Resp)) (w : World) :
  deref (extend (more_data options w).2 (more_data options w).1 (state_data w))
    (data (state (this w)))
  = state_data w.
Proof.
  destruct (decide (data (state (this w)) = (more_data options w).1)) as [Heq|Hne].
  - rewrite Heq at 1. rewrite deref_extend_eq. unfold more_data in *.
    destruct (options_data Ctx Resp (default no_options options)) as [l|]; cbn [fst snd] in *.
    + unfold state_data. rewrite Heq. apply (idemp (∪)).
    + rewrite deref_alloc_eq. apply (right_id ∅ (∪)).
  - unfold state_data, more_data, alloc, extend, deref in *.
    destruct (options_data Ctx Resp (default no_options options)) as [l|]; cbn [fst snd] in *;
      by rewrite !lookup_insert_ne by done.
Qed.

(** Each operation keeps the stored query parameters free of a page. *)
Lemma run_keeps_page_out (op : Operation Ctx Resp) (w : World) :
  keeps_bookkeeping (fetch_success None) →
  state_data w !! "page" = None →
  state_data (run StringToNumber inherited_text Array_sort nonce self fetch_success op w) !! "page" = None.
Proof.
  intros Hk Hpage. destruct op as [method d|d|d|through_fetch ctx arguments]; cbn [run].
  - destruct (String.eqb "read" method) eqn:Hm.
    + apply String.eqb_eq in Hm as <-. rewrite sync_read_stored. apply lookup_delete_eq.
    + unfold sync. rewrite Hm. exact Hpage.
  - unfold fetch. rewrite sync_read_stored. apply lookup_delete_eq.
  - unfold more_fetch.
    destruct (more_outcome (Some (bare d)) w) as (_ & _ & ->). cbn zeta.
    assert (∀ o w1, state_data
                      (let '(w2, r) := fetch StringToNumber inherited_text Array_sort nonce self
                                         fetch_success (Some o) w1 in
                       match r with
                       | Normal c => (w2, Normal (Some c))
                       | Abrupt e => (w2, Abrupt e)
                       end).1 !! "page" = None) as Hfetch.
    { intros o w1.
      pose proof (sync_read_stored self
                    (Some (set_options_success
                             (Some (fetch_success (options_success Ctx Resp o))) o)) w1) as Hs.
      unfold fetch. cbn [default].
      destruct (sync _ _ _ _ _ _ _ w1) as [w2 [c|e]]; cbn [fst] in *;
        rewrite Hs; apply lookup_delete_eq. }
    destruct (isUndefined _); [destruct (negb _)|]; try apply Hfetch.
    cbn [fst]. unfold state_data at 1. fields.
    by rewrite more_merge_keeps_stored.
  - destruct (sync_success_frame
                (if through_fetch then Some (fetch_success None) else None)
                ctx arguments w) as (Hh & Hd & _).
    { destruct through_fetch; [exact Hk|]. by intros ? ? ?. }
    unfold state_data in *. by rewrite Hh, Hd.
Qed.

(** The stored query parameters never keep a page. Starting from stored
    parameters without a page, whatever sequence of [sync], [fetch] and
    [more] calls and of answers follows, in whatever order and with
    whatever data, the stored parameters hold no page afterwards. *)
Theorem stored_data_never_keeps_page (ops : list (Operation Ctx Resp)) (w : World) :
  keeps_bookkeeping (fetch_success None) →
  state_data w !! "page" = None →
  state_data (run_all StringToNumber inherited_text Array_sort nonce self fetch_success ops w) !! "page"
  = None.
Proof.
  intros Hk. revert w. induction ops as [|op ops IH]; intros w Hpage; [exact Hpage|].
  cbn [run_all]. apply IH. by apply run_keeps_page_out.
Qed.

(** Answers are counted, not matched to requests. Every answer to a read
    advances the current page by one, whichever request it answers:
    after a run of answers the current page is the page before them plus
    their number, and the totals are those of the last one. *)
Theorem answers_are_counted (answers : list (bool * Ctx * Args Resp)) (last_answer : Args Resp)
    (w : World) (c : Z) :
  keeps_bookkeeping (fetch_success None) →
  currentPage (state (this w)) = Some (Int c) ∨ (currentPage (state (this w)) = None ∧ c = 0) →
  last answers.*2 = Some last_answer →
  let w' := run_all StringToNumber inherited_text Array_sort nonce self fetch_success
              ((λ a, do_answer a.1.1 a.1.2 a.2) <$> answers) w in
  currentPage (state (this w')) = Some (Int (c + Z.of_nat (length answers)))
  ∧ totalPages (state (this w'))
    = Some (parseInt10 (getResponseHeader (request Resp last_answer) "x-wp-totalpages"))
  ∧ totalObjects (state (this w'))
    = Some (parseInt10 (getResponseHeader (request Resp last_answer) "x-wp-total")).
Proof.
  intros Hk. revert w c.
  induction answers as [|[[b ctx] a] answers IH]; intros w c Hc Hlast; [done|].
  cbn [fmap list_fmap run_all run fst snd length].
  destruct (sync_success_frame (if b then Some (fetch_success None) else None) ctx a w)
    as (_ & _ & Htp & Hto & Hcp & _).
  { destruct b; [exact Hk|]. by intros ? ? ?. }
  set (w1 := (sync_success (if b then Some (fetch_success None) else None) ctx a w).1) in *.
  assert (currentPage (state (this w1)) = Some (Int (c + 1))) as Hc1.
  { rewrite Hcp. destruct Hc as [->|[-> ->]]; done. }
  destruct answers as [|a' answers].
  - cbn in Hlast. injection Hlast as <-. cbn [fmap list_fmap run_all length].
    rewrite Hc1. done.
  - destruct (IH w1 (c + 1)) as (Hcp' & Htp' & Hto'); [by left|exact Hlast|].
    cbn zeta in *. rewrite Hcp', Htp', Hto'. split; [|done].
    do 2 f_equal. cbn [length]. lia.
Qed.


End Paging.

End Properties.

(** ** The model at work *)

(** The example of the specification: after page 3 is read and answered
    with 5 pages and 97 objects, the state holds page 3 of 5 and 97
    objects, [hasMore] is [true], and [more] asks for page 4. *)
Lemma page3_of_5_example :
  page3_sent.2
  = Normal (Backbone_sync "read" tt
              (set_options_success (Some (sync_success None)) (data_only page3_request.1)))
  ∧ currentPage (state (this page3_sent.1)) = Some (Int 2)
  ∧ currentPage (state (this page3_of_5)) = Some (Int 3)
  ∧ totalPages (state (this page3_of_5)) = Some (Int 5)
  ∧ totalObjects (state (this page3_of_5)) = Some (Int 97)
  ∧ state_data page3_of_5 = ∅
  ∧ hasMore page3_of_5 = VBool true
  ∧ (let r := more (Target := unit) (None : option (Options unit unit)) page3_of_5 in
     sent_data r.1 (match r.2 with Normal c => c | Abrupt _ => Returned_false end)
     = Some {[ "page" := VNum (Int 4) ]}).
Proof. repeat split; by vm_compute. Qed.

(** C1 at the example: the read of page 3 goes out with the current page
    at 2, and its callback, run on the answer, leaves page 3 of 5 and 97
    objects. *)
Lemma sync_read_with_page_witness :
  options_data unit unit (data_only page3_request.1) = Some page3_request.1
  ∧ deref (heap page3_request.2) page3_request.1 !! "page" = Some (VNum (Int 3))
  ∧ currentPage (state (this page3_sent.1)) = Some (Int 2)
  ∧ ∃ o cb,
      page3_sent.2 = Normal (Backbone_sync "read" tt o)
      ∧ options_success unit unit o = Some cb
      ∧ let w' := (cb tt (response_with (Some "5") (Some "97")) page3_sent.1).1 in
        currentPage (state (this w')) = Some (Int 3)
        ∧ totalPages (state (this w')) = Some (Int 5)
        ∧ totalObjects (state (this w')) = Some (Int 97).
Proof.
  split; [reflexivity|]. split; [vm_compute; reflexivity|].
  destruct (sync_read_with_page no_numeric_strings native_code insertion_Array_sort None
              unit unit unit tt (data_only page3_request.1) page3_request.2
              page3_request.1 (VNum (Int 3)))
    as (Hbefore & _ & Hgoes & Hcb); [reflexivity | vm_compute; reflexivity | reflexivity |].
  split; [exact Hbefore|].
  destruct Hgoes as [o Ho]; [right; vm_compute; reflexivity|].
  destruct (Hcb _ Ho) as (o' & cb & Heq & _ & Hs & Hrun). injection Heq as <-.
  destruct (Hrun tt (response_with (Some "5") (Some "97")) page3_sent.1 5%N 97%N
              eq_refl eq_refl) as (w' & Hcbrun & _ & Htp & Hto & Himm).
  exists o, cb. split; [exact Ho|]. split; [exact Hs|].
  rewrite Hcbrun. cbn [invoke fst].
  split; [exact (Himm eq_refl)|]. split; [exact Htp | exact Hto].
Defined.

(** C2 at the collection of the example: a [fetch()] without options
    resets the three counters, and its callback, run on the answer, leaves
    the current page at 1. *)
Lemma sync_read_without_page_witness :
  let options : option (Options unit unit) := None in
  let sent := sync no_numeric_strings native_code insertion_Array_sort None "read" tt options
                page3_of_5 in
  caller_data page3_of_5 options !! "page" = None
  ∧ currentPage (state (this page3_of_5)) = Some (Int 3)
  ∧ currentPage (state (this sent.1)) = None
  ∧ totalPages (state (this sent.1)) = None
  ∧ totalObjects (state (this sent.1)) = None
  ∧ ∃ o cb,
      sent.2 = Normal (Backbone_sync "read" tt o)
      ∧ options_success unit unit o = Some cb
      ∧ currentPage
          (state (this (cb tt (response_with (Some "5") (Some "97")) sent.1).1))
        = Some (Int 1).
Proof.
  intros options sent. split; [vm_compute; reflexivity|].
  split; [vm_compute; reflexivity|].
  pose proof (sync_read_without_page no_numeric_strings native_code insertion_Array_sort None
                unit unit unit tt options page3_of_5) as H.
  destruct H as (H1 & H2 & H3 & Hgoes & Hcb); [vm_compute; reflexivity|].
  do 3 (split; [assumption|]).
  destruct Hgoes as [o Ho]; [right; vm_compute; reflexivity|].
  destruct (Hcb _ Ho) as (o' & cb & Heq & Hs & _ & Hrun). injection Heq as <-.
  destruct (Hrun tt (response_with (Some "5") (Some "97"))) as (w' & Hcbrun & Hone).
  exists o, cb. split; [exact Ho|]. split; [exact Hs|].
  fold sent in Hcbrun. rewrite Hcbrun. exact Hone.
Defined.

(** C4, refuted as stated: a collection that has just been created has no
    current page and no page key anywhere, and [more()] returns [false]:
    it asks for no page at all, page 2 included. *)
Lemma more_unset_requests_nothing :
  let options : option (Options unit unit) := None in
  currentPage (state (this new_collection)) = None
  ∧ merged_data new_collection options !! "page" = None
  ∧ (more (Target := unit) options new_collection).2 = Normal Returned_false
  ∧ ¬ requests_page (Target := unit) options new_collection (Int 2).
Proof.
  intros options.
  split; [done|]. split; [by vm_compute|]. split; [by vm_compute|].
  intros (w' & r & Hmore & d & Hd & _).
  assert ((more (Target := unit) options new_collection).2 = Normal r) as Hr
    by (by rewrite Hmore).
  vm_compute in Hr. injection Hr as <-. discriminate Hd.
Qed.

(** C4 as amended, at the example: from page 3 of 5, [more()] asks for
    page 4. *)
Lemma more_requests_next_page_witness :
  let options : option (Options unit unit) := None in
  merged_data page3_of_5 options !! "page" = None
  ∧ hasMore page3_of_5 = VBool true
  ∧ requests_page (Target := unit) options page3_of_5 (Int 4).
Proof.
  intros options. split; [vm_compute; reflexivity|]. split; [vm_compute; reflexivity|].
  pose proof (more_requests_next_page unit unit unit options page3_of_5) as H.
  destruct H as [_ H]; [vm_compute; reflexivity|].
  destruct H as (c & t & w' & o & Hc & _ & _ & _ & _ & _ & Hreq); [vm_compute; reflexivity|].
  vm_compute in Hc. injection Hc as <-. exact Hreq.
Defined.

(** C5 at a collection that has just been created. *)
Lemma more_unset_returns_false_witness :
  let options : option (Options unit unit) := None in
  currentPage (state (this new_collection)) = None
  ∧ merged_data new_collection options !! "page" = None
  ∧ hasMore new_collection = VNull
  ∧ ∃ w', more (Target := unit) options new_collection = (w', Normal Returned_false)
          ∧ this w' = this new_collection.
Proof.
  intros options. split; [reflexivity|]. split; [vm_compute; reflexivity|].
  apply (more_unset_returns_false unit unit unit options new_collection);
    [reflexivity | vm_compute; reflexivity].
Defined.

(** C6, at an input on which the code breaks the invariant: a collection
    constructed with [{ data: { page: 2 } }] stores the page key. *)
Lemma initialize_keeps_page :
  deref (heap seed_page2.2) seed_page2.1 = {[ "page" := VNum (Int 2) ]}
  ∧ state_data bootstrapped !! "page" = Some (VNum (Int 2)).
Proof. split; by vm_compute. Qed.

(** C7, at an input on which the code loses the caller's page: on the
    collection constructed with page 2, [more( { data: { page: 5 } } )]
    calls [fetch] with page 2. *)
Lemma more_stored_page_wins :
  let options := data_only page5_request.1 in
  let r := more (Target := unit) (Some options) page5_request.2 in
  caller_data page5_request.2 (Some options) !! "page" = Some (VNum (Int 5))
  ∧ r.2 = Normal (Returned_call (this_fetch options))
  ∧ deref (heap r.1) page5_request.1 = {[ "page" := VNum (Int 2) ]}.
Proof. repeat split; by vm_compute. Qed.

(** C8 at a collection ordered by date: the first activation sorts the
    two records and answers [true]; the second changes nothing and
    answers [false]. *)
Lemma initSortOnChange_idempotent_witness :
  _initSortOnChange no_numeric_strings native_code insertion_Array_sort ordered_by_date
  = (activated, Normal true)
  ∧ _initSortOnChange no_numeric_strings native_code insertion_Array_sort activated
    = (activated, Normal false).
Proof.
  assert (_initSortOnChange no_numeric_strings native_code insertion_Array_sort ordered_by_date
          = (activated, Normal true)) as Hfirst by (vm_compute; reflexivity).
  split; [exact Hfirst|].
  apply (initSortOnChange_idempotent no_numeric_strings native_code insertion_Array_sort activated).
  right; right. exists ordered_by_date. exact Hfirst.
Defined.

(** C10, refuted as stated: the header value [12abc] is no base-10
    integer, and the total stored for it is 12, not [NaN]. *)
Lemma sync_success_reads_leading_digits :
  let w := (sync_success None tt (response_with (Some "12abc") (Some "97")) page3_sent.1).1 in
  base10_integer "12abc" = false
  ∧ totalPages (state (this w)) = Some (Int 12)
  ∧ totalPages (state (this w)) ≠ Some NaN.
Proof. intros w. split; [done|]. split; [by vm_compute|]. by vm_compute. Qed.

(** C10 as amended, at a response without the total of pages and with a
    total of objects that is no number. *)
Lemma sync_success_unreadable_header_witness :
  let arguments := response_with None (Some "many") in
  let w := (sync_success None tt arguments page3_sent.1).1 in
  unreadable (getResponseHeader (request unit arguments) "x-wp-totalpages") = true
  ∧ unreadable (getResponseHeader (request unit arguments) "x-wp-total") = true
  ∧ totalPages (state (this w)) = Some NaN
  ∧ totalObjects (state (this w)) = Some NaN
  ∧ currentPage (state (this w)) = Some (Int 3).
Proof.
  intros arguments w. split; [reflexivity|]. split; [reflexivity|].
  destruct (sync_success_unreadable_header unit unit None tt arguments page3_sent.1)
    as (w' & Hrun & Hp & Ho & Hc & _); [left; reflexivity|].
  assert (w = w') as -> by (subst w; by rewrite Hrun).
  split; [apply Hp; reflexivity|]. split; [apply Ho; reflexivity|].
  rewrite Hc. vm_compute. reflexivity.
Defined.

(** C3 at the example: nothing is known about a collection that has just
    been created, and page 3 of 5 has more. *)
Lemma hasMore_null_or_compares_witness :
  hasMore new_collection = VNull
  ∧ hasMore page3_of_5 = VBool true
  ∧ number_lt (Int 3) (Int 5).
Proof.
  destruct (hasMore_null_or_compares new_collection) as [Hnull _].
  destruct (hasMore_null_or_compares page3_of_5) as [_ Hcmp].
  split; [apply Hnull; left; reflexivity|].
  destruct (Hcmp (Int 3) (Int 5) (Int 97)) as (_ & Htrue & _); try (vm_compute; reflexivity).
  assert (number_lt (Int 3) (Int 5)) as Hlt by (cbn; lia).
  split; [by apply Htrue | exact Hlt].
Defined.



(** [more] on the options that a read without data has filled in writes
    the page it asks for into the stored query parameters, the two being
    one object; the read that follows stores a copy without the page. *)
Lemma more_writes_page_into_shared_data :
  let asked := more (Target := unit) (Some shared_options) shared_answered in
  options_data unit unit shared_options = Some (data (state (this shared_answered)))
  ∧ state_data shared_answered !! "page" = None
  ∧ asked.2 = Normal (Returned_call (this_fetch shared_options))
  ∧ state_data asked.1 !! "page" = Some (VNum (Int 2))
  ∧ state_data (sync no_numeric_strings native_code insertion_Array_sort None "read" tt
                  (Some shared_options) asked.1).1 !! "page" = None.
Proof. repeat split; by vm_compute. Qed.

(** From page 3 of 5, [more( { data: { page: 7, per_page: 10 } } )] asks
    for page 7. *)
Lemma more_keeps_caller_page_witness :
  let options := Some (data_only page7_request.1) in
  state_data page7_request.2 !! "page" = None
  ∧ caller_data page7_request.2 options !! "page" = Some (VNum (Int 7))
  ∧ requests_page (Target := unit) options page7_request.2 (Int 7).
Proof.
  intros options. split; [vm_compute; reflexivity|]. split; [vm_compute; reflexivity|].
  destruct (more_keeps_caller_page unit unit unit options page7_request.2 (VNum (Int 7)))
    as (w' & o & d & Hmore & Hsent & _ & Hpage & _); try (vm_compute; reflexivity).
  exists w', (Returned_call (this_fetch o)). split; [exact Hmore|].
  exists d. split; [exact Hsent | exact Hpage].
Defined.

(** The first activation on the collection ordered by date installs the
    default comparator and one listener, and puts January first. *)
Lemma initSortOnChange_activates_witness :
  this activated
  = {| state := state (this ordered_by_date);
       parent := VUndefined;
       _initializedSortOnChange := true;
       comparator := Some DefaultComparator;
       models := [ {| attributes := {[ "date" := VStr "2015-01-01" ]} |};
                   {| attributes := {[ "date" := VStr "2015-02-01" ]} |} ];
       _events := [("sync change", SortHandler)] |}.
Proof.
  unfold activated.
  rewrite (initSortOnChange_activates no_numeric_strings native_code insertion_Array_sort
             ordered_by_date
             [ {| attributes := {[ "date" := VStr "2015-01-01" ]} |};
               {| attributes := {[ "date" := VStr "2015-02-01" ]} |} ]);
    [reflexivity | reflexivity | vm_compute; reflexivity | vm_compute; reflexivity].
Defined.

(** With the nonce [abc], a [create] goes out with a hook that sets the
    header. *)
Lemma sync_sets_nonce_header_witness :
  let sent := sync no_numeric_strings native_code insertion_Array_sort (Some "abc") "create" tt
                (None : option (Options unit unit)) new_collection in
  ∃ o hook,
    sent.2 = Normal (Backbone_sync "create" tt o)
    ∧ options_beforeSend unit unit o = Some hook
    ∧ (hook {| requestHeaders := [] |} new_collection).1.1
      = {| requestHeaders := [("X-WP-Nonce", "abc")] |}.
Proof.
  intros sent.
  destruct (sync_sets_nonce_header no_numeric_strings native_code insertion_Array_sort (Some "abc")
              unit unit unit "create" tt None new_collection "abc" eq_refl
              (Backbone_sync "create" tt
                 (sync_nonce (Some "abc") no_options)))
    as (o & hook & Hcall & Hhook & Hruns); [reflexivity|].
  exists o, hook. split; [subst sent; by rewrite <- Hcall|]. split; [exact Hhook|].
  by rewrite Hruns.
Defined.

(** *** Further instances *)

(** The framework's callback, reduced to storing the records, keeps the
    bookkeeping. *)
Lemma store_records_keeps : keeps_bookkeeping (store_records None).
Proof. intros ctx arguments w. done. Qed.

(** An [update] of the collection of the example goes out with the
    caller's data and changes nothing. *)
Lemma sync_other_method_changes_nothing_witness :
  let options := Some (data_only page3_request.1) in
  "update" ≠ "read"
  ∧ ∃ o, sync no_numeric_strings native_code insertion_Array_sort None "update" tt options page3_request.2
         = (page3_request.2, Normal (Backbone_sync "update" tt o))
         ∧ options_data unit unit o = Some page3_request.1.
Proof.
  intros options. split; [done|].
  destruct (sync_other_method_changes_nothing no_numeric_strings native_code insertion_Array_sort None
              unit unit unit "update" tt options page3_request.2)
    as (o & Hsync & Hdata & _); [done|].
  exists o. split; [exact Hsync | exact Hdata].
Defined.

(** From page 3 of 5, [more()] asks for a page between 2 and 5. *)
Lemma more_page_bounds_witness :
  let options : option (Options unit unit) := None in
  merged_data page3_of_5 options !! "page" = None
  ∧ hasMore page3_of_5 = VBool true
  ∧ ∃ p, requests_page (Target := unit) options page3_of_5 (Int p) ∧ 2 ≤ p ≤ 5.
Proof.
  intros options. split; [vm_compute; reflexivity|]. split; [vm_compute; reflexivity|].
  destruct (more_page_bounds unit unit unit options page3_of_5)
    as (c & t & p & Hc & Ht & Hreq & Hlow & _ & Hwithin);
    [vm_compute; reflexivity | vm_compute; reflexivity |].
  vm_compute in Hc. injection Hc as <-. vm_compute in Ht. injection Ht as <-.
  exists p. split; [exact Hreq|]. lia.
Defined.

(** [more] on the options a read without data has been through writes
    the page into the stored query parameters. *)
Lemma more_writes_page_into_stored_witness :
  options_data unit unit shared_options = Some (data (state (this shared_answered)))
  ∧ state_data shared_answered !! "page" = None
  ∧ hasMore shared_answered = VBool true
  ∧ ∃ p, requests_page (Target := unit) (Some shared_options) shared_answered (Int p)
         ∧ state_data (more (Target := unit) (Some shared_options) shared_answered).1
             !! "page" = Some (VNum (Int p)).
Proof.
  split; [vm_compute; reflexivity|]. split; [vm_compute; reflexivity|].
  split; [vm_compute; reflexivity|].
  apply (more_writes_page_into_stored unit unit unit shared_options shared_answered);
    vm_compute; reflexivity.
Defined.

(** A record without a date makes the activation throw, with the default
    comparator installed, the listener registered and the flag unset. *)
Lemma initSortOnChange_throw_keeps_listener_witness :
  let r := _initSortOnChange no_numeric_strings native_code insertion_Array_sort with_undated_record in
  r.2 = Abrupt (Error "Model lacks specified orderby field: date")
  ∧ _initializedSortOnChange (this r.1) = false
  ∧ comparator (this r.1) = Some DefaultComparator
  ∧ _events (this r.1) = [("sync change", SortHandler)].
Proof.
  intros r.
  assert (r.2 = Abrupt (Error "Model lacks specified orderby field: date")) as Hthrow
    by (vm_compute; reflexivity).
  split; [exact Hthrow|].
  destruct (initSortOnChange_throw_keeps_listener no_numeric_strings native_code insertion_Array_sort
              with_undated_record _ Hthrow) as (_ & Hflag & Hk & Hev & _).
  split; [exact Hflag|]. split; [exact Hk | exact Hev].
Defined.

(** February and January, either way round. *)
Lemma defaultComparator_antisymmetric_witness :
  let february := {| attributes := {[ "date" := VStr "2015-02-01" ]} |} in
  let january := {| attributes := {[ "date" := VStr "2015-01-01" ]} |} in
  ∃ r, defaultComparator no_numeric_strings native_code ordered_by_date february january = Normal (Int r)
       ∧ defaultComparator no_numeric_strings native_code ordered_by_date january february
         = Normal (Int (- r)).
Proof.
  intros february january.
  apply (defaultComparator_antisymmetric no_numeric_strings native_code ordered_by_date february january
           (VStr "date") (VStr "2015-02-01") (VStr "2015-01-01") Gt);
    vm_compute; reflexivity.
Defined.

(** January, February and March. *)
Lemma defaultComparator_transitive_witness :
  let january := {| attributes := {[ "date" := VStr "2015-01-01" ]} |} in
  let february := {| attributes := {[ "date" := VStr "2015-02-01" ]} |} in
  let march := {| attributes := {[ "date" := VStr "2015-03-01" ]} |} in
  ∃ r1 r2 r3,
    defaultComparator no_numeric_strings native_code ordered_by_date january february = Normal (Int r1)
    ∧ defaultComparator no_numeric_strings native_code ordered_by_date february march = Normal (Int r2)
    ∧ defaultComparator no_numeric_strings native_code ordered_by_date january march = Normal (Int r3)
    ∧ (r1 ≤ 0 → r2 ≤ 0 → r3 ≤ 0)
    ∧ (0 ≤ r1 → 0 ≤ r2 → 0 ≤ r3).
Proof.
  intros january february march.
  apply (defaultComparator_transitive no_numeric_strings native_code ordered_by_date
           january february march (VStr "date")
           (VStr "2015-01-01") (VStr "2015-02-01") (VStr "2015-03-01") Lt Lt);
    vm_compute; reflexivity.
Defined.

(** A record whose date is [NaN] against a record dated 5: 1 both ways,
    and -1 both ways with the latest first. *)
Lemma defaultComparator_NaN_both_ways_witness :
  let invalid := {| attributes := {[ "date" := VNum NaN ]} |} in
  let dated := {| attributes := {[ "date" := VNum (Int 5) ]} |} in
  (defaultComparator no_numeric_strings native_code ordered_by_date invalid dated
   = Normal (Int 1)
   ∧ defaultComparator no_numeric_strings native_code ordered_by_date dated invalid
     = Normal (Int 1))
  ∧ (defaultComparator no_numeric_strings native_code ordered_by_date_desc invalid dated
     = Normal (Int (-1))
     ∧ defaultComparator no_numeric_strings native_code ordered_by_date_desc dated invalid
       = Normal (Int (-1))).
Proof.
  intros invalid dated. split.
  - apply (defaultComparator_NaN_both_ways no_numeric_strings native_code ordered_by_date
             invalid dated (VStr "date") (VNum (Int 5)));
      try (vm_compute; reflexivity); discriminate.
  - apply (defaultComparator_NaN_both_ways no_numeric_strings native_code
             ordered_by_date_desc invalid dated (VStr "date") (VNum (Int 5)));
      try (vm_compute; reflexivity); discriminate.
Defined.

(** February and January, latest first. *)
Lemma defaultComparator_desc_reverses_witness :
  let february := {| attributes := {[ "date" := VStr "2015-02-01" ]} |} in
  let january := {| attributes := {[ "date" := VStr "2015-01-01" ]} |} in
  state_data ordered_by_date !! "order" ≠ Some (VStr "desc")
  ∧ defaultComparator no_numeric_strings native_code ordered_by_date_desc february january
    = Normal (Int (-1)).
Proof.
  intros february january.
  assert (state_data ordered_by_date !! "order" ≠ Some (VStr "desc")) as Hasc
    by (vm_compute; discriminate).
  split; [exact Hasc|].
  rewrite (defaultComparator_desc_reverses no_numeric_strings native_code ordered_by_date
             ordered_by_date_desc february january Hasc); vm_compute; reflexivity.
Defined.

(** An answer without the number of pages: [hasMore] is [false] and
    [more()] sends nothing. *)
Lemma answer_settles_hasMore_witness :
  let arguments := response_with None (Some "97") in
  let w := (sync_success None tt arguments page3_sent.1).1 in
  hasMore w = VBool false
  ∧ (more (Target := unit) (None : option (Options unit unit)) w).2 = Normal Returned_false.
Proof.
  intros arguments w.
  destruct (answer_settles_hasMore unit unit unit None tt arguments page3_sent.1)
    as (_ & Hbad); [by intros ? ? ?|].
  destruct Hbad as (Hno & Hmore); [reflexivity|].
  split; [exact Hno|]. apply Hmore. vm_compute. reflexivity.
Defined.

(** Headers with more than a count in them. *)
Lemma sync_success_reads_count_prefix_witness :
  let arguments := response_with (Some "5, 5") (Some "97 posts") in
  let w := (sync_success None tt arguments page3_sent.1).1 in
  totalPages (state (this w)) = Some (Int 5)
  ∧ totalObjects (state (this w)) = Some (Int 97)
  ∧ hasMore w = VBool true.
Proof.
  intros arguments w.
  destruct (sync_success_reads_count_prefix unit unit None tt arguments page3_sent.1
              5%N 97%N ", 5" " posts")
    as (Hp & Ho & Hmore); [by intros ? ? ? | reflexivity..|].
  split; [exact Hp|]. split; [exact Ho|]. apply (Hmore 3). vm_compute. reflexivity.
Defined.



(** A [fetch], its answer, a [more], its answer and a read of page 3 in
    a row. *)
Lemma stored_data_never_keeps_page_witness :
  state_data
    (run_all no_numeric_strings native_code insertion_Array_sort None (Target := unit) tt store_records
       [ do_fetch None; do_answer true tt page_of_posts;
         do_more None; do_answer true tt page_of_posts;
         do_sync "read" (Some page3_request.1) ]
       page3_request.2) !! "page" = None.
Proof.
  apply (stored_data_never_keeps_page no_numeric_strings native_code insertion_Array_sort None
           unit (list Model) unit tt store_records);
    [exact store_records_keeps | vm_compute; reflexivity].
Defined.

(** Two answers in a row on a new collection. *)
Lemma answers_are_counted_witness :
  let w := run_all no_numeric_strings native_code insertion_Array_sort None (Target := unit) tt
             store_records
             [ do_answer true tt page_of_posts;
               do_answer false tt (records_with [] (Some "7") (Some "61")) ]
             new_collection in
  currentPage (state (this w)) = Some (Int 2)
  ∧ totalPages (state (this w)) = Some (Int 7).
Proof.
  intros w.
  destruct (answers_are_counted no_numeric_strings native_code insertion_Array_sort None
              unit (list Model) unit tt store_records
              [ (true, tt, page_of_posts);
                (false, tt, records_with [] (Some "7") (Some "61")) ]
              (records_with [] (Some "7") (Some "61")) new_collection 0)
    as (Hcp & Htp & _);
    [exact store_records_keeps | right; split; reflexivity | reflexivity |].
  split; [exact Hcp | exact Htp].
Defined.

